(** * Verification of the link classifier, path resolver and download ledger
    of math-scraper.

    Two pipelines of the repository are embedded here:
    - [Unified]: the multi-board scraper of [scrapers.py] (with its
      [CONFIGS] from [config.py] and the ledger helpers of [utils.py]);
    - [Pmt]: the resumable orchestrator [scrape_pmt_papers] of [main.py]
      (with its own [CONFIGS], ledger, validation and hashing).

    Python strings are modelled as Rocq [string]s (ASCII); [str.lower],
    [str.upper], [str.capitalize] and [str.strip] act on ASCII letters and
    ASCII whitespace.  The regular expressions of the source are written out
    as leftmost scans, as [re.search] performs them. *)

From Stdlib Require Import String Ascii List Bool Arith Lia.
From stdpp Require Import base gmap strings list.

Import ListNotations.
Open Scope string_scope.

(* ------------------------------------------------------------------ *)
(** ** String primitives used by the source *)

Module Str.

(** [p] is a prefix of [s] ([s.startswith(p)]). *)
Fixpoint prefixb (p s : string) : bool :=
  match p, s with
  | EmptyString, _ => true
  | String a p', String b s' => Ascii.eqb a b && prefixb p' s'
  | _, _ => false
  end.

(** Python's [needle in s]. *)
Fixpoint contains (needle s : string) : bool :=
  prefixb needle s ||
  match s with
  | EmptyString => false
  | String _ s' => contains needle s'
  end.

Definition is_upper (c : ascii) : bool :=
  Nat.leb 65 (nat_of_ascii c) && Nat.leb (nat_of_ascii c) 90.
Definition is_lower (c : ascii) : bool :=
  Nat.leb 97 (nat_of_ascii c) && Nat.leb (nat_of_ascii c) 122.
Definition is_digit (c : ascii) : bool :=
  Nat.leb 48 (nat_of_ascii c) && Nat.leb (nat_of_ascii c) 57.
Definition is_space (c : ascii) : bool :=
  let n := nat_of_ascii c in Nat.eqb n 32 || (Nat.leb 9 n && Nat.leb n 13).

Definition lower_char (c : ascii) : ascii :=
  if is_upper c then ascii_of_nat (nat_of_ascii c + 32)%nat else c.
Definition upper_char (c : ascii) : ascii :=
  if is_lower c then ascii_of_nat (nat_of_ascii c - 32)%nat else c.

Fixpoint map_chars (f : ascii -> ascii) (s : string) : string :=
  match s with
  | EmptyString => EmptyString
  | String c s' => String (f c) (map_chars f s')
  end.

(** [s.lower()], [s.upper()]. *)
Definition lower (s : string) : string := map_chars lower_char s.
Definition upper (s : string) : string := map_chars upper_char s.

(** [s.capitalize()]: first character upper case, the rest lower case. *)
Definition capitalize (s : string) : string :=
  match s with
  | EmptyString => EmptyString
  | String c s' => String (upper_char c) (lower s')
  end.

(** [s.lstrip()], [s.strip()]. *)
Fixpoint lstrip (s : string) : string :=
  match s with
  | String c s' => if is_space c then lstrip s' else s
  | EmptyString => EmptyString
  end.
Fixpoint rev_str (s : string) (acc : string) : string :=
  match s with
  | EmptyString => acc
  | String c s' => rev_str s' (String c acc)
  end.
Definition strip (s : string) : string :=
  rev_str (lstrip (rev_str (lstrip s) EmptyString)) EmptyString.

(** The longest prefix of digits ([\d+] / [\d*] greedy). *)
Fixpoint take_digits (s : string) : string :=
  match s with
  | String c s' => if is_digit c then String c (take_digits s') else EmptyString
  | EmptyString => EmptyString
  end.

(** [re.search(lit + r'(\d+)', s).group(1)]: the leftmost position where
    the literal is followed by at least one digit; the group is the greedy
    run of digits there. *)
Fixpoint search_lit_digits (lit s : string) : option string :=
  let here :=
    if prefixb lit s then
      match take_digits (substring (String.length lit) (String.length s) s) with
      | EmptyString => None
      | ds => Some ds
      end
    else None in
  match here with
  | Some ds => Some ds
  | None =>
      match s with
      | EmptyString => None
      | String _ s' => search_lit_digits lit s'
      end
  end.

(** [re.search(r'20(\d{2})', s).group(1)]. *)
Definition year_here (s : string) : option string :=
  match s with
  | String "2" (String "0" (String d1 (String d2 _))) =>
      if is_digit d1 && is_digit d2 then Some (String d1 (String d2 EmptyString))
      else None
  | _ => None
  end.

Fixpoint search_year (s : string) : option string :=
  match year_here s with
  | Some yy => Some yy
  | None =>
      match s with
      | EmptyString => None
      | String _ s' => search_year s'
      end
  end.

(** Case-insensitive prefix test ([re.IGNORECASE] on ASCII letters). *)
Definition prefixb_ci (p s : string) : bool := prefixb (lower p) (lower s).

(** [re.search('(A1|A2|...)', s).group(1)]: at the leftmost position where
    some alternative matches, the first alternative (in order) matching
    there; the group is the matched text of [s].  [ci] selects
    [re.IGNORECASE]. *)
Fixpoint first_alt (ci : bool) (alts : list string) (s : string) : option string :=
  match alts with
  | [] => None
  | a :: alts' =>
      if (if ci then prefixb_ci a s else prefixb a s)
      then Some (substring 0 (String.length a) s)
      else first_alt ci alts' s
  end.

Fixpoint search_alt (ci : bool) (alts : list string) (s : string) : option string :=
  match first_alt ci alts s with
  | Some m => Some m
  | None =>
      match s with
      | EmptyString => None
      | String _ s' => search_alt ci alts s'
      end
  end.

(** [s.endswith(suf)]. *)
Definition endswith (suf s : string) : bool :=
  prefixb (rev_str suf EmptyString) (rev_str s EmptyString).

(** [posixpath.basename(p)]: everything after the last ['/']. *)
Fixpoint basename_aux (s cur : string) : string :=
  match s with
  | EmptyString => rev_str cur EmptyString
  | String c s' =>
      if Ascii.eqb c "/" then basename_aux s' EmptyString
      else basename_aux s' (String c cur)
  end.
Definition basename (s : string) : string := basename_aux s EmptyString.

(** [s.split(sep)] on a one-character separator. *)
Fixpoint split_aux (sep : ascii) (s cur : string) : list string :=
  match s with
  | EmptyString => [rev_str cur EmptyString]
  | String c s' =>
      if Ascii.eqb c sep then rev_str cur EmptyString :: split_aux sep s' EmptyString
      else split_aux sep s' (String c cur)
  end.
Definition split (sep : ascii) (s : string) : list string := split_aux sep s EmptyString.

(** [s.replace(a, b)] on single characters. *)
Definition replace_char (a b : ascii) (s : string) : string :=
  map_chars (fun c => if Ascii.eqb c a then b else c) s.

(** [posixpath.join(a, *p)]. *)
Definition join2 (a b : string) : string :=
  if prefixb "/" b then b
  else if String.eqb a "" || endswith "/" a then a ++ b
  else a ++ "/" ++ b.
Definition join (parts : list string) : string :=
  match parts with
  | [] => ""
  | p :: ps => fold_left join2 ps p
  end.

(** Python's [l[i]] on a list of strings: [None] stands for [IndexError]. *)
Definition index (l : list string) (i : nat) : option string := nth_error l i.

End Str.

(** [s.split(sep)] for a separator of several characters (non-overlapping,
    left to right); [fuel] bounds the scan by the length of [s]. *)
Module StrSplit.
Import Str.

Fixpoint split_str_aux (fuel : nat) (sep s cur : string) : list string :=
  match fuel with
  | O => [cur ++ s]
  | S fuel' =>
      match s with
      | EmptyString => [cur]
      | String c s' =>
          if prefixb sep s then
            cur :: split_str_aux fuel' sep
                     (substring (String.length sep) (String.length s) s) EmptyString
          else split_str_aux fuel' sep s' (cur ++ String c EmptyString)
      end
  end.

Definition split_str (sep s : string) : list string :=
  split_str_aux (S (String.length s)) sep s EmptyString.

End StrSplit.

(* ------------------------------------------------------------------ *)
(** ** Board profiles ([CONFIGS]) *)

Record section := mk_section {
  sec_name : string;
  sec_identifier : string;
  sec_display_name : option string;   (** [section.get('display_name')] *)
  sec_content_types : list string;
  sec_subtypes : option (list string) (** [None]: no ["subtypes"] key *)
}.

Record config := mk_config {
  cfg_name : string;
  cfg_base_url : string;
  cfg_sections : list section
}.

(** [CONFIGS[key]]; [None] is a [KeyError]. *)
Fixpoint lookup_config (key : string) (cs : list (string * config)) : option config :=
  match cs with
  | [] => None
  | (k, c) :: cs' => if String.eqb k key then Some c else lookup_config key cs'
  end.

Definition bytes := list Byte.byte.

(* ------------------------------------------------------------------ *)
(** ** The unified scraper: [scrapers.py], [config.py], [utils.py] *)

Module Unified.
Import Str.

(** [config.py]: [CONFIGS]. *)
Definition qp_ms := ["QP"; "MS"].
Definition sec (n i : string) : section := mk_section n i None qp_ms None.

Definition CONFIGS : list (string * config) := [
  ("ocr_alevel", mk_config "OCR A-Level"
     "https://www.physicsandmathstutor.com/maths-revision/a-level-ocr/papers/"
     [sec "Paper 1 - Pure" "component-1-pure";
      sec "Paper 2 - Pure and Statistics" "component-2-pure-and-statistics";
      sec "Paper 3 - Pure and Mechanics" "component-3-pure-and-mechanics"]);
  ("ocr_mei_alevel", mk_config "OCR MEI A-Level"
     "https://www.physicsandmathstutor.com/maths-revision/a-level-ocr-mei/papers/"
     [sec "Component 1 - Pure and Mechanics" "component-1-pure-and-mechanics";
      sec "Component 2 - Pure and Statistics" "component-2-pure-and-statistics";
      sec "Component 3 - Pure and Comprehension" "component-3-pure-and-comprehension"]);
  ("aqa_alevel", mk_config "AQA A-Level"
     "https://www.physicsandmathstutor.com/maths-revision/a-level-aqa/papers/"
     [sec "Paper 1 - Pure" "paper-1-pure";
      sec "Paper 2 - Pure and Mechanics" "paper-2-pure-mechanics";
      sec "Paper 3 - Pure and Statistics" "paper-3-pure-statistics"]);
  ("edexcel_alevel", mk_config "Edexcel A-Level"
     "https://www.physicsandmathstutor.com/maths-revision/a-level-edexcel/papers/"
     [sec "Paper 1 - Pure" "paper-1-pure";
      sec "Paper 2 - Pure" "paper-2-pure";
      mk_section "Paper 3 - Statistics & Mechanics" "paper-3-statistics-mechanics"
        None qp_ms (Some ["Mechanics"; "Statistics"])])
].

(** [f"paper {number}"], [f"Paper {number}"]. *)
Definition numbered (n : string) : string * string := ("paper " ++ n, "Paper " ++ n).

(** [determine_paper_number(href, link_text, config_key)]; [None] stands for
    the [(None, None)] result. *)
Definition determine_paper_number (href link_text config_key : string)
    : option (string * string) :=
  if String.eqb config_key "ocr_alevel" then
    match search_lit_digits "Component " link_text with
    | Some n => Some (numbered n)
    | None =>
        match search_lit_digits "component-" (lower href) with
        | Some n => Some (numbered n)
        | None =>
            if contains "pure-mathematics" (lower href)
               && negb (contains "statistics" (lower href))
               && negb (contains "mechanics" (lower href))
            then Some ("paper 1", "Paper 1")
            else if contains "statistics" (lower href) || contains "stats" (lower href)
            then Some ("paper 2", "Paper 2")
            else if contains "mechanics" (lower href) || contains "mech" (lower href)
            then Some ("paper 3", "Paper 3")
            else None
        end
    end
  else if String.eqb config_key "ocr_mei_alevel" then
    match search_lit_digits "Component " link_text with
    | Some n => Some (numbered n)
    | None =>
        match search_lit_digits "Paper-" href with
        | Some n => Some (numbered n)
        | None =>
            if contains "mechanics" (lower href) || contains "mech" (lower href)
               || contains "component-1" (lower href)
            then Some ("paper 1", "Paper 1")
            else if contains "statistics" (lower href) || contains "stats" (lower href)
               || contains "component-2" (lower href)
            then Some ("paper 2", "Paper 2")
            else if contains "comprehension" (lower href) || contains "comp" (lower href)
               || contains "component-3" (lower href)
            then Some ("paper 3", "Paper 3")
            else None
        end
    end
  else if String.eqb config_key "aqa_alevel" || String.eqb config_key "edexcel_alevel" then
    match search_lit_digits "Paper-" href with
    | Some n =>
        (* paper_match.group(0).lower().replace('-', ' ') *)
        Some (replace_char "-" " " (lower ("Paper-" ++ n)), "Paper " ++ n)
    | None => None
    end
  else None.

Record metadata := mk_metadata {
  md_paper_type : string;
  md_year : option string;
  md_month : option string;
  md_subtype : option string;
  md_content_type : option string;
  md_exam_board : string;
  md_level : string
}.

Definition set_content_type (c : option string) (m : metadata) : metadata :=
  mk_metadata m.(md_paper_type) m.(md_year) m.(md_month) m.(md_subtype) c
    m.(md_exam_board) m.(md_level).

(** The month alternation of [extract_metadata]. *)
Definition month_alts := ["June"; "October"; "January"; "November"; "Nov"].

Definition extract_month (link_text : string) : option string :=
  match search_alt false month_alts link_text with
  | Some m => Some (if String.eqb m "Nov" then "November" else m)
  | None => None
  end.

(** [extract_metadata(href, link_text, config_key, paper_number,
    paper_display_name)]; [None] is the [IndexError] of
    [config_key.split('_')[1]] on a key without ['_']. *)
Definition extract_metadata (href link_text config_key paper_number paper_display_name : string)
    : option metadata :=
  let board_level :=
    if String.eqb config_key "ocr_mei_alevel" then Some ("ocr-mei", "alevel")
    else match index (split "_" config_key) 0, index (split "_" config_key) 1 with
         | Some b, Some l => Some (b, l)
         | _, _ => None
         end in
  match board_level with
  | None => None
  | Some (board, level) =>
      let content_type :=
        if contains "QP" link_text then Some "QP"
        else if contains "MS" link_text then Some "MS" else None in
      let year := match search_year link_text with
                  | Some yy => Some ("20" ++ yy) | None => None end in
      let month := extract_month link_text in
      let subtype :=
        if String.eqb config_key "edexcel_alevel" && contains "paper 3" paper_number then
          if contains "Mech" link_text || contains "mech" (lower link_text) then Some "Mechanics"
          else if contains "Stat" link_text || contains "stat" (lower link_text) then Some "Statistics"
          else None
        else None in
      Some (mk_metadata paper_display_name year month subtype content_type board level)
  end.

(** [utils.create_folder_structure(base_path, config_key)]: the folders it
    creates, or [None] when it raises (unknown key, malformed key or
    section name). *)
Definition board_level_of (config_key : string) : option (string * string) :=
  if String.eqb config_key "ocr_mei_alevel" then Some ("ocr-mei", "alevel")
  else match index (split "_" config_key) 0, index (split "_" config_key) 1 with
       | Some b, Some l => Some (b, l)
       | _, _ => None
       end.

Definition section_paper_number (name : string) : option string :=
  if contains "Component" name then
    match search_lit_digits "Component " name with
    | Some n => Some ("paper " ++ n)
    | None => None
    end
  else
    match search_lit_digits "Paper " name with
    | Some n => Some (lower ("Paper " ++ n))
    | None => None
    end.

Fixpoint sections_folders (base board level : string) (ss : list section)
    : option (list string) :=
  match ss with
  | [] => Some []
  | s :: ss' =>
      match section_paper_number s.(sec_name), sections_folders base board level ss' with
      | Some pn, Some rest =>
          Some (map (fun ct => join [base; level; board; pn; lower ct]) s.(sec_content_types)
                ++ rest)%list
      | _, _ => None
      end
  end.

Definition create_folder_structure (base_path config_key : string) : option (list string) :=
  match lookup_config config_key CONFIGS, board_level_of config_key with
  | Some cfg, Some (board, level) => sections_folders base_path board level cfg.(cfg_sections)
  | _, _ => None
  end.

(** One row of the tracking CSV written by [utils.add_to_tracking_csv]. *)
Record row := mk_row {
  r_filename : string;
  r_exam_board : string;
  r_level : string;
  r_paper_type : string;
  r_subtype : option string;
  r_content_type : option string;
  r_year : option string;
  r_month : option string;
  r_file_path : string;
  r_download_date : string
}.

(** What the scraper prints for a link. *)
Inductive event :=
| EvSkipPaper (link_text : string)      (** "Cannot determine paper number" *)
| EvSkipContent (link_text : string)    (** "Unknown content type" *)
| EvDryRun (save_path : string)
| EvSaved (save_path : string)
| EvFailed (status : nat)
| EvError (filename : string).

Record state := mk_state {
  st_dirs : list string;            (** directories on disk *)
  st_files : gmap string bytes;     (** regular files on disk *)
  st_csv : option (list row);       (** the tracking CSV, [None] if absent *)
  st_requests : list string;        (** URLs requested, in order *)
  st_log : list event;
  st_count : nat                    (** [downloads_count] *)
}.

(** The external capabilities: [requests.get] for attempt [k] of a URL
    ([None] raises), [urllib.parse.unquote] and the wall clock. *)
Record ext := mk_ext {
  x_get : nat -> string -> option (nat * bytes);
  x_unquote : string -> string;
  x_now : string
}.

Definition log (e : event) (s : state) : state :=
  mk_state s.(st_dirs) s.(st_files) s.(st_csv) s.(st_requests) (s.(st_log) ++ [e])%list s.(st_count).
Definition request (url : string) (s : state) : state :=
  mk_state s.(st_dirs) s.(st_files) s.(st_csv) (s.(st_requests) ++ [url])%list s.(st_log) s.(st_count).
Definition append_row (r : row) (s : state) : state :=
  mk_state s.(st_dirs) s.(st_files)
    (Some (match s.(st_csv) with Some rs => (rs ++ [r])%list | None => [r] end))
    s.(st_requests) s.(st_log) s.(st_count).
Definition write_file (p : string) (b : bytes) (s : state) : state :=
  mk_state s.(st_dirs) (<[p := b]> s.(st_files)) s.(st_csv) s.(st_requests) s.(st_log) s.(st_count).
Definition bump (s : state) : state :=
  mk_state s.(st_dirs) s.(st_files) s.(st_csv) s.(st_requests) s.(st_log) (S s.(st_count)).

(** A directory exists if it was created, or is an ancestor of one. *)
Definition dir_exists (d : string) (s : state) : bool :=
  existsb (fun p => String.eqb p d || prefixb (d ++ "/") p) s.(st_dirs).

(** The link filter of [scrape_papers]: [(href, link.text.strip())] for the
    [<a href>] elements of the page kept for this board. *)
Definition keep_link (config_key : string) (a : string * string) : bool :=
  let '(href, text) := a in
  if String.eqb config_key "aqa_alevel" then
    (contains "QP" text || contains "MS" text)
    && (contains "Paper" href || contains "paper" (lower href))
  else contains "QP" text || contains "MS" text.

Definition collect_links (config_key : string) (page : list (string * string))
    : list (string * string) :=
  map (fun '(href, text) => (href, strip text)) (List.filter (keep_link config_key) page).

(** The destination folder: [folder_components] of [scrape_papers]. *)
Definition folder_components (base_path : string) (md : metadata)
    (paper_number content_type : string) : list string :=
  [base_path; md.(md_level); md.(md_exam_board); paper_number; content_type].

(** The content type of a link: [("qp", "question papers")] or
    [("ms", "mark schemes")]. *)
Definition link_content_type (link_text : string) : option (string * string) :=
  if contains "QP" link_text then Some ("qp", "question papers")
  else if contains "MS" link_text then Some ("ms", "mark schemes")
  else None.

Definition row_of (md : metadata) (filename file_path now : string) : row :=
  mk_row filename md.(md_exam_board) md.(md_level) md.(md_paper_type) md.(md_subtype)
    md.(md_content_type) md.(md_year) md.(md_month) file_path now.

(** [open(save_path, 'wb')] raises when the folder is missing or the path
    names a directory. *)
Definition can_open_wb (save_folder filename : string) (s : state) : bool :=
  negb (String.eqb filename "" || String.eqb filename "." || String.eqb filename "..")
  && dir_exists save_folder s.

(** The [try] block of [scrape_papers]: request, one retry on status 400,
    save and record on status 200. *)
Definition download (x : ext) (md : metadata)
    (filename save_folder save_path url : string) (s : state) : state :=
  let s1 := request url s in
  match x.(x_get) 0 url with
  | None => log (EvError filename) s1
  | Some (code0, body0) =>
      let '(resp, s2) :=
        if Nat.eqb code0 400 then (x.(x_get) 1 url, request url s1)
        else (Some (code0, body0), s1) in
      match resp with
      | None => log (EvError filename) s2
      | Some (code, body) =>
          if Nat.eqb code 200 then
            if can_open_wb save_folder filename s2 then
              bump (append_row (row_of md filename save_path x.(x_now))
                      (log (EvSaved save_path) (write_file save_path body s2)))
            else log (EvError filename) s2
          else log (EvFailed code) s2
      end
  end.

(** The URL the loop of [scrape_papers] works with: for a ["pdf-pages"]
    redirect link, [unquote(href.split("?pdf=")[1])]; [None] is the
    [IndexError] when there is no ["?pdf="]. *)
Definition link_href (x : ext) (href0 : string) : option string :=
  if contains "pdf-pages" href0 then
    match index (StrSplit.split_str "?pdf=" href0) 1 with
    | Some p => Some (x.(x_unquote) p)
    | None => None
    end
  else Some href0.

(** The body of the [for] loop of [scrape_papers] for one link; [None] is
    an uncaught exception, which aborts [scrape_papers]. *)
Definition process_link (x : ext) (base_path config_key : string) (dry_run : bool)
    (link : string * string) (s : state) : option state :=
  let '(href0, link_text) := link in
  match link_href x href0 with
  | None => None
  | Some href =>
    match determine_paper_number href link_text config_key with
    | None => Some (log (EvSkipPaper link_text) s)
    | Some (paper_number, paper_display_name) =>
      match link_content_type link_text with
      | None => Some (log (EvSkipContent link_text) s)
      | Some (content_type, _) =>
        match extract_metadata href link_text config_key paper_number paper_display_name with
        | None => None
        | Some md0 =>
          let md := set_content_type (Some (upper content_type)) md0 in
          let filename := basename href in
          let save_folder := join (folder_components base_path md paper_number content_type) in
          let save_path := join [save_folder; filename] in
          if dry_run then Some (log (EvDryRun save_path) s)
          else Some (download x md filename save_folder save_path href s)
        end
      end
    end
  end.

Fixpoint run_links (x : ext) (base_path config_key : string) (dry_run : bool)
    (links : list (string * string)) (s : state) : option state :=
  match links with
  | [] => Some s
  | l :: ls =>
      match process_link x base_path config_key dry_run l s with
      | None => None
      | Some s' => run_links x base_path config_key dry_run ls s'
      end
  end.

Definition add_dirs (ds : list string) (s : state) : state :=
  mk_state (s.(st_dirs) ++ ds)%list s.(st_files) s.(st_csv) s.(st_requests) s.(st_log) s.(st_count).

(** [scrape_papers(base_path, csv_path, config_key, dry_run)] on a page
    whose [<a href>] elements are [page] (href, text), in document order.
    The returned state's [st_count] is the returned [downloads_count]
    (counted from the state's [st_count], which starts at 0). *)
Definition scrape_papers (x : ext) (base_path config_key : string) (dry_run : bool)
    (page : list (string * string)) (s : state) : option state :=
  match lookup_config config_key CONFIGS with
  | None => None
  | Some cfg =>
    match create_folder_structure base_path config_key with
    | None => None
    | Some ds =>
      let s1 := add_dirs ds s in
      let s2 := match s1.(st_csv) with
                | Some _ => s1
                | None => mk_state s1.(st_dirs) s1.(st_files) (Some []) s1.(st_requests)
                            s1.(st_log) s1.(st_count)
                end in
      run_links x base_path config_key dry_run (collect_links config_key page)
        (request cfg.(cfg_base_url) s2)
    end
  end.

End Unified.

(* ------------------------------------------------------------------ *)
(** ** The command line of [math_paper_scraper.py] *)

Module Cli.
Import Str.

(** [CONFIGS.keys()], in the order of [config.py]. *)
Definition board_keys : list string := map fst Unified.CONFIGS.

(** The board selection of [main()]: ["all"] (in any letter case) selects
    every board; otherwise the comma-separated names, stripped.  [None] is
    the early [return] on an unknown board, before anything is created or
    scraped. *)
Definition select_boards (board : string) : option (list string) :=
  if String.eqb (lower board) "all" then Some board_keys
  else
    let boards := map strip (split "," board) in
    if forallb (fun b => existsb (String.eqb b) board_keys) boards then Some boards
    else None.

End Cli.

(* ------------------------------------------------------------------ *)
(** ** The resumable orchestrator: [main.py] *)

Module Pmt.
Import Str.

(** [main.py]: [CONFIGS].  Paper 3 is declared with the anchor id of
    Paper 1 ("The HTML has a typo and uses paper1 for Paper 3"). *)
Definition CONFIGS : list (string * config) := [
  ("edexcel_alevel", mk_config "Edexcel A-Level"
     "https://www.physicsandmathstutor.com/maths-revision/a-level-edexcel/papers/"
     [mk_section "Paper 1" "paper1" None ["QP"; "MS"] None;
      mk_section "Paper 2" "paper2" None ["QP"; "MS"] None;
      mk_section "Paper 3" "paper1" (Some "Paper 3 - Statistics & Mechanics")
        ["QP"; "MS"] (Some ["Mechanics"; "Statistics"])])
].

(** The parsed source page, as the flat sequence of sibling elements the
    orchestrator walks: headings [h1]..[h6] (with the ids of the anchors
    they contain and their text), [div]s (with the ids of their anchors,
    the text of their first [h5]/[h6] heading, and their [<a href>] links
    as (href, text)), horizontal rules and any other element. *)
Inductive elem :=
| Heading (lvl : nat) (ids : list string) (text : string)
| Div (ids : list string) (title : option string) (links : list (string * string))
| Hr
| Other (ids : list string).

Definition elem_ids (e : elem) : list string :=
  match e with
  | Heading _ ids _ | Div ids _ _ | Other ids => ids
  | Hr => []
  end.

Definition has_id (id : string) (e : elem) : bool :=
  existsb (String.eqb id) (elem_ids e).

(** The position of the first element at or after [i] satisfying [f]. *)
Fixpoint find_from {A} (f : A -> bool) (l : list A) (i : nat) : option nat :=
  match l with
  | [] => None
  | a :: l' => if f a then Some i else find_from f l' (S i)
  end.

(** [soup.find('a', id=identifier)]: the position of the element holding
    the first anchor with that id. *)
Definition find_anchor (page : list elem) (id : string) : option nat :=
  find_from (has_id id) page 0.

(** [section_anchor.find_parent(['h1', ..., 'h6'])]: the anchor's element
    when it is a heading. *)
Definition is_heading (e : elem) : bool :=
  match e with Heading lvl _ _ => Nat.leb 1 lvl && Nat.leb lvl 6 | _ => false end.

Definition parent_heading (page : list elem) (p : nat) : option nat :=
  match nth_error page p with
  | Some e => if is_heading e then Some p else None
  | None => None
  end.

Definition is_h4 (e : elem) : bool :=
  match e with Heading 4 _ _ => true | _ => false end.

Definition text_of (e : elem) : string :=
  match e with Heading _ _ t => t | _ => "" end.

(** [soup.find_all('h4')], as positions in the page. *)
Fixpoint h4_positions_from (page : list elem) (i : nat) : list nat :=
  match page with
  | [] => []
  | e :: page' => if is_h4 e then i :: h4_positions_from page' (S i)
                  else h4_positions_from page' (S i)
  end.
Definition h4_positions (page : list elem) : list nat := h4_positions_from page 0.

(** [all_h4s.index(section_heading)]; [None] is the [ValueError]. *)
Definition list_index (l : list nat) (x : nat) : option nat :=
  find_from (Nat.eqb x) l 0.

(** [for i in range(current_index, len(all_h4s)): if 'Paper 3' in
    all_h4s[i].text: section_heading = all_h4s[i]; break]. *)
Definition rescan_paper3 (page : list elem) (hs : list nat) (current_index heading : nat) : nat :=
  match find (fun j => contains "Paper 3" (text_of (nth j page Hr))) (skipn current_index hs) with
  | Some j => j
  | None => heading
  end.

(** [section_heading.find_next_sibling('div')]. *)
Definition is_div (e : elem) : bool := match e with Div _ _ _ => true | _ => false end.

Definition next_div (page : list elem) (q : nat) : option nat :=
  match find_from is_div (skipn (S q) page) (S q) with
  | Some c => Some c
  | None => None
  end.

(** The content type of a [div] from its [h5]/[h6] heading. *)
Definition div_content_type (title : option string) : option string :=
  match title with
  | Some t =>
      if contains "Question" t then Some "QP"
      else if contains "Mark" t || contains "MS" t then Some "MS"
      else None
  | None => None
  end.

(** The [while] loop over the siblings from the container: stops at the
    first [hr] or heading; collects (href, text, content_type). *)
Fixpoint collect_block (els : list elem) : list (string * string * string) :=
  match els with
  | [] => []
  | Hr :: _ => []
  | Heading _ _ _ :: _ => []
  | Div _ title links :: rest =>
      match div_content_type title with
      | Some ct => (map (fun '(h, t) => (h, t, ct)) links ++ collect_block rest)%list
      | None => collect_block rest
      end
  | Other _ :: rest => collect_block rest
  end.

(** The outcome of locating a section on the page. *)
Inductive sec_result :=
| SecSkip                                          (** logged, [continue] *)
| SecRaise                                         (** uncaught exception *)
| SecLinks (links : list (string * string * string)).

Definition is_paper3_section (s : section) : bool :=
  match s.(sec_display_name) with
  | Some d => negb (String.eqb d "") && contains "Paper 3" d
  | None => false
  end.

(** The heading a section's links are read from: [None] when the section
    is skipped, [Some None] on the [ValueError] of [all_h4s.index]. *)
Definition section_heading (page : list elem) (s : section) : option (option nat) :=
  match find_anchor page s.(sec_identifier) with
  | None => None
  | Some a =>
    match parent_heading page a with
    | None => None
    | Some h =>
      if is_paper3_section s then
        let hs := h4_positions page in
        match list_index hs h with
        | None => Some None
        | Some ci => Some (Some (rescan_paper3 page hs ci h))
        end
      else Some (Some h)
    end
  end.

Definition section_links (page : list elem) (s : section) : sec_result :=
  match section_heading page s with
  | None => SecSkip
  | Some None => SecRaise
  | Some (Some q) =>
    match next_div page q with
    | None => SecSkip
    | Some c => SecLinks (collect_block (skipn c page))
    end
  end.

(** A row of the tracking CSV written by [add_to_tracking_csv]. *)
Record entry := mk_entry {
  e_filename : string;
  e_exam_board : string;
  e_level : string;
  e_paper_type : string;
  e_subtype : option string;
  e_content_type : string;
  e_year : option string;
  e_month : option string;
  e_file_path : string;
  e_download_date : string;
  e_file_hash : string;
  e_validated : bool
}.

(** The result of [download_file_with_progress]: the bytes written on
    success, or failure after the retries (possibly leaving the bytes of a
    partial attempt at the destination). *)
Inductive transfer_result :=
| Transferred (b : bytes)
| TransferFailed (partial : option bytes).

(** External capabilities: the transfer, [PyPDF2]'s validity check on the
    file's bytes, MD5 hex digest, [urljoin] and the wall clock. *)
Record ext := mk_ext {
  x_transfer : string -> transfer_result;
  x_valid : bytes -> bool;
  x_md5 : bytes -> string;
  x_urljoin : string -> string -> string;
  x_now : string
}.

Inductive event :=
| EvNoSection (identifier : string)
| EvMissingYear (link_text : string)
| EvAlreadyDownloaded (filename : string)
| EvInvalidPdf (save_path : string)
| EvFailed (filename : string)
| EvSaved (filename : string).

Record state := mk_state {
  st_dirs : list string;
  st_files : gmap string bytes;
  st_ledger : option (list entry);   (** [None]: the CSV is absent or empty *)
  st_transfers : list string;        (** URLs transferred, in order *)
  st_log : list event
}.

Definition log (e : event) (s : state) : state :=
  mk_state s.(st_dirs) s.(st_files) s.(st_ledger) s.(st_transfers) (s.(st_log) ++ [e])%list.
Definition makedirs (d : string) (s : state) : state :=
  mk_state (s.(st_dirs) ++ [d])%list s.(st_files) s.(st_ledger) s.(st_transfers) s.(st_log).
Definition set_files (fs : gmap string bytes) (s : state) : state :=
  mk_state s.(st_dirs) fs s.(st_ledger) s.(st_transfers) s.(st_log).
Definition add_transfer (url : string) (s : state) : state :=
  mk_state s.(st_dirs) s.(st_files) s.(st_ledger) (s.(st_transfers) ++ [url])%list s.(st_log).
Definition set_ledger (l : option (list entry)) (s : state) : state :=
  mk_state s.(st_dirs) s.(st_files) l s.(st_transfers) s.(st_log).

(** [add_to_tracking_csv]: append one row. *)
Definition add_to_tracking_csv (e : entry) (s : state) : state :=
  set_ledger (Some (match s.(st_ledger) with Some es => (es ++ [e])%list | None => [e] end)) s.

(** [initialize_tracking_csv(csv_path, overwrite)]. *)
Definition initialize_tracking_csv (overwrite : bool) (s : state) : state :=
  match s.(st_ledger) with
  | Some _ => if overwrite then set_ledger (Some []) s else s
  | None => set_ledger (Some []) s
  end.

(** [get_downloaded_files(csv_path)]. *)
Definition get_downloaded_files (s : state) : list string :=
  match s.(st_ledger) with
  | Some es => map e_filename es
  | None => []
  end.

Definition mem (x : string) (l : list string) : bool := existsb (String.eqb x) l.

(** [validate_pdf(file_path)] and [calculate_file_hash(file_path)]: both
    read the file; a missing file gives [False] and [""]. *)
Definition validate_pdf (x : ext) (p : string) (s : state) : bool :=
  match s.(st_files) !! p with Some b => x.(x_valid) b | None => false end.
Definition calculate_file_hash (x : ext) (p : string) (s : state) : string :=
  match s.(st_files) !! p with Some b => x.(x_md5) b | None => "" end.

(** [download_file_with_progress(session, url, save_path)]. *)
Definition download_file (x : ext) (url save_path : string) (s : state) : bool * state :=
  let s1 := add_transfer url s in
  match x.(x_transfer) url with
  | Transferred b => (true, set_files (<[save_path := b]> s1.(st_files)) s1)
  | TransferFailed (Some b) => (false, set_files (<[save_path := b]> s1.(st_files)) s1)
  | TransferFailed None => (false, s1)
  end.

(** The twelve month names of the orchestrator's month pattern. *)
Definition months12 :=
  ["January"; "February"; "March"; "April"; "May"; "June"; "July";
   "August"; "September"; "October"; "November"; "December"].

Definition extract_month (link_text : string) : option string :=
  match search_alt true months12 link_text with
  | Some m => Some (capitalize m)
  | None => None
  end.

Definition extract_year (link_text : string) : option string :=
  match search_year link_text with Some yy => Some ("20" ++ yy) | None => None end.

(** The subtype loop: the first subtype whose lower-case name, or its first
    four letters in parentheses, occurs in the lower-cased link text. *)
Definition find_subtype (link_text : string) (subtypes : option (list string)) : option string :=
  match subtypes with
  | None => None
  | Some subs =>
      find (fun st => contains (lower st) (lower link_text)
                      || contains ("(" ++ lower (substring 0 4 st) ++ ")") (lower link_text)) subs
  end.

(** The character class of [re.sub(...)] in the filename clean-up: the
    characters less-than, greater-than, colon, double quote (code 34),
    slash, backslash, bar, question mark and star become ['_']. *)
Definition unsafe (c : ascii) : bool :=
  existsb (Ascii.eqb c) ["<"; ">"; ":"; ascii_of_nat 34; "/"; "\"; "|"; "?"; "*"]%char.
Definition sanitize (s : string) : string := map_chars (fun c => if unsafe c then "_"%char else c) s.

(** The filename of a link. *)
Definition link_filename (full_url link_text : string) : string :=
  let filename := basename full_url in
  if endswith ".pdf" filename then filename
  else sanitize (strip link_text ++ ".pdf").

(** The Paper 3 re-detection of the subtype from the link text. *)
Definition paper3_subtype (link_text : string) (sub : option string) : option string :=
  if contains "(Mech)" link_text || contains "(Mechanics)" link_text then Some "Mechanics"
  else if contains "(Stats)" link_text || contains "(Statistics)" link_text then Some "Statistics"
  else sub.

Definition truthy (o : option string) : bool :=
  match o with Some v => negb (String.eqb v "") | None => false end.

Definition content_folder (ct : string) : string :=
  if String.eqb ct "QP" then "question_papers" else "mark_schemes".

(** [folder_components] and the final subtype of the metadata. *)
Definition folder_and_subtype (base_path exam_board level paper_type ct link_text : string)
    (sub : option string) : list string * option string :=
  let head := [base_path; capitalize exam_board; upper level; replace_char " " "_" paper_type] in
  if contains "Paper 3" paper_type && truthy sub then
    let sub' := paper3_subtype link_text sub in
    ((head ++ [match sub' with Some v => v | None => "" end; content_folder ct])%list, sub')
  else ((head ++ [content_folder ct])%list, sub).

(** Results that may carry an uncaught exception, with the state at that
    point (the files and the CSV persist). *)
Inductive res :=
| Ok (s : state)
| Exc (s : state).

(** [urljoin(config['base_url'], href)] unless the href starts with
    ["http"]. *)
Definition full_url (x : ext) (base_url href : string) : string :=
  if prefixb "http" href then href else x.(x_urljoin) base_url href.

(** The body of the per-link [for] loop of [scrape_pmt_papers]. *)
Definition process_link (x : ext) (base_url base_path config_key : string) (sec : section)
    (resume validate_files : bool) (downloaded : list string)
    (link : string * string * string) (s : state) : res :=
  let '(href, link_text, content_type) := link in
  let url := full_url x base_url href in
  match index (split "_" config_key) 0, index (split "_" config_key) 1 with
  | Some exam_board, Some level =>
    let year := extract_year link_text in
    let month := extract_month link_text in
    let subtype := find_subtype link_text sec.(sec_subtypes) in
    match year with
    | None => Ok (log (EvMissingYear link_text) s)
    | Some _ =>
      let filename := link_filename url link_text in
      if resume && mem filename downloaded then Ok (log (EvAlreadyDownloaded filename) s)
      else
        let '(folder, subtype') :=
          folder_and_subtype base_path exam_board level sec.(sec_name) content_type link_text subtype in
        let save_folder := join folder in
        let s1 := makedirs save_folder s in
        let save_path := join [save_folder; filename] in
        let '(ok, s2) := download_file x url save_path s1 in
        if ok then
          let validated := if validate_files then validate_pdf x save_path s2 else false in
          if validate_files && negb validated then
            Ok (log (EvInvalidPdf save_path) (set_files (delete save_path s2.(st_files)) s2))
          else
            let file_hash := calculate_file_hash x save_path s2 in
            Ok (log (EvSaved filename)
                  (add_to_tracking_csv
                     (mk_entry filename exam_board level sec.(sec_name) subtype' content_type
                        year month save_path x.(x_now) file_hash validated) s2))
        else Ok (log (EvFailed filename) s2)
    end
  | _, _ => Exc s
  end.

Fixpoint run_links (x : ext) (base_url base_path config_key : string) (sec : section)
    (resume validate_files : bool) (downloaded : list string)
    (links : list (string * string * string)) (s : state) : res :=
  match links with
  | [] => Ok s
  | l :: ls =>
      match process_link x base_url base_path config_key sec resume validate_files downloaded l s with
      | Ok s' => run_links x base_url base_path config_key sec resume validate_files downloaded ls s'
      | Exc s' => Exc s'
      end
  end.

(** The [for section in config["paper_sections"]] loop. *)
Fixpoint run_sections (x : ext) (base_url base_path config_key : string)
    (resume validate_files : bool) (downloaded : list string) (page : list elem)
    (secs : list section) (s : state) : res :=
  match secs with
  | [] => Ok s
  | sec :: secs' =>
      match section_links page sec with
      | SecSkip =>
          run_sections x base_url base_path config_key resume validate_files downloaded page secs'
            (log (EvNoSection sec.(sec_identifier)) s)
      | SecRaise => Exc s
      | SecLinks links =>
          match run_links x base_url base_path config_key sec resume validate_files downloaded links s with
          | Ok s' =>
              run_sections x base_url base_path config_key resume validate_files downloaded page secs' s'
          | Exc s' => Exc s'
          end
      end
  end.

(** [create_folder_structure(base_path, config_key)] of [main.py]. *)
Definition section_folders (base board level : string) (sec : section) : list string :=
  let section_name :=
    replace_char " " "_" (match sec.(sec_display_name) with Some d => d | None => sec.(sec_name) end) in
  match sec.(sec_subtypes) with
  | Some ((_ :: _) as subs) =>
      flat_map (fun st => map (fun ct => join [base; board; level; section_name; st; content_folder ct])
                              sec.(sec_content_types)) subs
  | _ => map (fun ct => join [base; board; level; section_name; content_folder ct]) sec.(sec_content_types)
  end.

(** [scrape_pmt_papers(base_path, csv_path, config_key, resume,
    validate_files)] on the fetched page: [Exc] is an uncaught exception;
    a failed fetch of the main page ([page = None]) returns [False] right
    after the set-up (its boolean result is not modelled). *)
Definition scrape_pmt_papers (x : ext) (base_path config_key : string)
    (resume validate_files : bool) (page : option (list elem)) (s : state) : res :=
  match lookup_config config_key CONFIGS with
  | None => Exc s
  | Some cfg =>
    match index (split "_" config_key) 0, index (split "_" config_key) 1 with
    | Some b, Some l =>
      let s1 := fold_left (fun st d => makedirs d st)
                  (flat_map (section_folders base_path (capitalize b) (upper l)) cfg.(cfg_sections)) s in
      let s2 := initialize_tracking_csv (negb resume) s1 in
      let downloaded := if resume then get_downloaded_files s2 else [] in
      match page with
      | None => Ok s2
      | Some els =>
          run_sections x cfg.(cfg_base_url) base_path config_key resume validate_files downloaded els
            cfg.(cfg_sections) s2
      end
    | _, _ => Exc s
    end
  end.

Definition res_state (r : res) : state := match r with Ok s | Exc s => s end.

(** The ledger row a link contributes in a resumed run with known
    filenames [downloaded], computed without the state: the same tests as
    [process_link], with the file's bytes taken from the transfer.  It is
    used to compare the ledgers of two runs. *)
Definition link_entry (x : ext) (base_url base_path config_key : string) (sec : section)
    (validate_files : bool) (downloaded : list string)
    (link : string * string * string) : list entry :=
  let '(href, link_text, content_type) := link in
  let url := full_url x base_url href in
  match index (split "_" config_key) 0, index (split "_" config_key) 1 with
  | Some exam_board, Some level =>
    match extract_year link_text with
    | None => []
    | Some _ =>
      let filename := link_filename url link_text in
      if mem filename downloaded then []
      else
        let '(folder, subtype') :=
          folder_and_subtype base_path exam_board level sec.(sec_name) content_type link_text
            (find_subtype link_text sec.(sec_subtypes)) in
        let save_path := join [join folder; filename] in
        match x.(x_transfer) url with
        | Transferred b =>
            if validate_files && negb (x.(x_valid) b) then []
            else [mk_entry filename exam_board level sec.(sec_name) subtype' content_type
                    (extract_year link_text) (extract_month link_text) save_path x.(x_now)
                    (x.(x_md5) b) (if validate_files then x.(x_valid) b else false)]
        | TransferFailed _ => []
        end
    end
  | _, _ => []
  end.

(** The rows a resumed run over the sections of a page contributes, up to
    the first section that raises. *)
Fixpoint sections_entries (x : ext) (base_url base_path config_key : string)
    (validate_files : bool) (downloaded : list string) (page : list elem)
    (secs : list section) : list entry :=
  match secs with
  | [] => []
  | sec :: secs' =>
      match section_links page sec with
      | SecSkip => sections_entries x base_url base_path config_key validate_files downloaded page secs'
      | SecRaise => []
      | SecLinks links =>
          (flat_map (link_entry x base_url base_path config_key sec validate_files downloaded) links
           ++ sections_entries x base_url base_path config_key validate_files downloaded page secs')%list
      end
  end.

End Pmt.

(* ------------------------------------------------------------------ *)
(** ** [download_file_with_progress] of [main.py], attempt by attempt *)

Module PmtDownload.

(** What one attempt [session.get(url, stream=True)] ... [f.write] does:
    - [AttemptOk b]: the whole body [b] is written and the function returns
      [True];
    - [AttemptRefused]: a [requests.RequestException] before the file is
      opened ([get] or [raise_for_status]);
    - [AttemptBroken b]: a [requests.RequestException] while streaming,
      after [open(save_path, 'wb')]: the file holds the chunks [b] written so far;
    - [AttemptCrash f]: any other exception, which is not caught and leaves
      the function ([f]: the partial file, if it was opened). *)
Inductive attempt_result :=
| AttemptOk (b : bytes)
| AttemptRefused
| AttemptBroken (b : bytes)
| AttemptCrash (f : option bytes).

(** The outcome: [Some true]/[Some false] is the returned boolean, [None]
    an exception leaving the function; the file at [save_path]; the number
    of [session.get] calls; the [time.sleep] durations, in order. *)
Record dl_result := mk_dl {
  dl_outcome : option bool;
  dl_file : option bytes;
  dl_gets : nat;
  dl_sleeps : list nat
}.

(** The [for attempt in range(retries)] loop over the attempts [todo]. *)
Fixpoint dl_loop (get : nat -> attempt_result) (retries : nat) (todo : list nat)
    (file : option bytes) (gets : nat) (sleeps : list nat) : dl_result :=
  match todo with
  | [] => mk_dl (Some false) file gets sleeps
  | attempt :: rest =>
      match get attempt with
      | AttemptOk b => mk_dl (Some true) (Some b) (S gets) sleeps
      | AttemptCrash f =>
          mk_dl None (match f with Some b => Some b | None => file end) (S gets) sleeps
      | AttemptRefused =>
          let sleeps' := (sleeps ++ [Nat.pow 2 attempt])%list in
          if Nat.eqb attempt (retries - 1) then mk_dl (Some false) file (S gets) sleeps'
          else dl_loop get retries rest file (S gets) sleeps'
      | AttemptBroken b =>
          let sleeps' := (sleeps ++ [Nat.pow 2 attempt])%list in
          if Nat.eqb attempt (retries - 1) then mk_dl (Some false) (Some b) (S gets) sleeps'
          else dl_loop get retries rest (Some b) (S gets) sleeps'
      end
  end.

(** [download_file_with_progress(session, url, save_path, retries)], with
    [get k] the behaviour of attempt [k] and [file] the file at
    [save_path] before the call. *)
Definition download_file_with_progress (get : nat -> attempt_result) (retries : nat)
    (file : option bytes) : dl_result :=
  dl_loop get retries (seq 0 retries) file 0 [].

End PmtDownload.

(** * Sample inputs *)

(** A page laid out as the orchestrator expects it, with the Paper 3
    heading carrying no anchor of its own, and an environment whose
    transfers all succeed. *)
Module PmtSamples.
Import Str Pmt.

Definition sample_page : list elem := [
  Heading 4 ["paper1"] "Paper 1 - Pure Mathematics";
  Div [] (Some "Question Papers") [("https://x/P1-June-2019-QP.pdf", "June 2019 QP")];
  Div [] (Some "Mark Schemes") [("https://x/P1-June-2019-MS.pdf", "June 2019 MS")];
  Heading 4 ["paper2"] "Paper 2 - Pure Mathematics";
  Div [] (Some "Question Papers") [("https://x/P2-June-2019-QP.pdf", "June 2019 QP")];
  Heading 4 [] "Paper 3 - Statistics & Mechanics";
  Div [] (Some "Question Papers") [("https://x/P3-June-2019-QP.pdf", "June 2019 QP (Mech)")];
  Hr].

Definition pdf_bytes : bytes := [Byte.x25; Byte.x50; Byte.x44; Byte.x46].

Definition sample_ext : ext :=
  mk_ext (fun _ => Transferred pdf_bytes) (fun _ => true) (fun _ => "5d41")
    (fun b h => b ++ h) "2026-01-01".

(** The same environment with a validity check that rejects every file. *)
Definition invalid_ext : ext :=
  mk_ext (fun _ => Transferred pdf_bytes) (fun _ => false) (fun _ => "5d41")
    (fun b h => b ++ h) "2026-01-01".

Definition empty_state : state := mk_state [] ∅ None [] [].

Definition paper1_section : section := mk_section "Paper 1" "paper1" None ["QP"; "MS"] None.
Definition paper3_section : section :=
  mk_section "Paper 3" "paper1" (Some "Paper 3 - Statistics & Mechanics") ["QP"; "MS"]
    (Some ["Mechanics"; "Statistics"]).

End PmtSamples.

(* ================================================================== *)
(** * Properties *)

Module StrFacts.
Import Str.

Lemma prefixb_substring (a s : string) :
  prefixb a s = true -> substring 0 (String.length a) s = a.
Proof.
  revert s. induction a as [|c a IH]; intros s H; [by destruct s|].
  destruct s as [|c' s]; [discriminate|]. simpl in H.
  apply andb_true_iff in H as [Hc H]. apply Ascii.eqb_eq in Hc as ->.
  simpl. f_equal. by apply IH.
Qed.

Lemma length_map_chars f (s : string) : String.length (map_chars f s) = String.length s.
Proof. induction s as [|c s IH]; simpl; [reflexivity|]. by rewrite IH. Qed.

Lemma length_lower (s : string) : String.length (lower s) = String.length s.
Proof. apply length_map_chars. Qed.

Lemma lower_substring n (s : string) :
  lower (substring 0 n s) = substring 0 n (lower s).
Proof.
  revert s. induction n as [|n IH]; intros s; [by destruct s|].
  destruct s as [|c s]; [reflexivity|]. exact (f_equal (String (lower_char c)) (IH s)).
Qed.

Lemma first_alt_in ci alts s m :
  first_alt ci alts s = Some m ->
  exists a, In a alts /\ (if ci then lower m = lower a else m = a).
Proof.
  induction alts as [|a alts IH]; simpl; [discriminate|].
  destruct ci.
  - unfold prefixb_ci. destruct (prefixb (lower a) (lower s)) eqn:Hp.
    + intros [= <-]. exists a. split; [by left|].
      rewrite lower_substring, <- (length_lower a). by apply prefixb_substring.
    + intros H. destruct (IH H) as [b [Hb E]]. exists b. split; [by right|exact E].
  - destruct (prefixb a s) eqn:Hp.
    + intros [= <-]. exists a. split; [by left|]. by apply prefixb_substring.
    + intros H. destruct (IH H) as [b [Hb E]]. exists b. split; [by right|exact E].
Qed.

Lemma search_alt_in ci alts s m :
  search_alt ci alts s = Some m ->
  exists a, In a alts /\ (if ci then lower m = lower a else m = a).
Proof.
  induction s as [|c s IH]; simpl;
    destruct (first_alt ci alts _) eqn:Hf; intros H; simplify_eq;
    try (by apply (first_alt_in ci alts _ _ Hf)); auto; discriminate.
Qed.

Lemma upper_lower_char c : upper_char (lower_char c) = upper_char c.
Proof. destruct c as [[] [] [] [] [] [] [] []]; reflexivity. Qed.

Lemma lower_lower_char c : lower_char (lower_char c) = lower_char c.
Proof. destruct c as [[] [] [] [] [] [] [] []]; reflexivity. Qed.

Lemma lower_lower (s : string) : lower (lower s) = lower s.
Proof.
  unfold lower. induction s as [|c s IH]; [reflexivity|]. simpl.
  by rewrite lower_lower_char, IH.
Qed.

Lemma capitalize_lower (s : string) : capitalize (lower s) = capitalize s.
Proof.
  destruct s as [|c s]; [reflexivity|].
  change (lower (String c s)) with (String (lower_char c) (lower s)).
  unfold capitalize. by rewrite upper_lower_char, lower_lower.
Qed.

Lemma str_app_cons ch (a b : string) : (String ch a ++ b)%string = String ch (a ++ b).
Proof. reflexivity. Qed.

Lemma map_chars_app f (a b : string) :
  map_chars f (a ++ b) = (map_chars f a ++ map_chars f b)%string.
Proof. induction a as [|ch a IH]; [reflexivity|]. rewrite str_app_cons. simpl. by rewrite IH. Qed.

End StrFacts.

Module UnifiedFacts.
Import Str Unified StrFacts.

Definition rows (s : state) : list row :=
  match s.(st_csv) with Some rs => rs | None => [] end.

Lemma rows_log e s : rows (log e s) = rows s.
Proof. reflexivity. Qed.
Lemma rows_request u s : rows (request u s) = rows s.
Proof. reflexivity. Qed.
Lemma rows_bump s : rows (bump s) = rows s.
Proof. reflexivity. Qed.
Lemma rows_write p b s : rows (write_file p b s) = rows s.
Proof. reflexivity. Qed.
Lemma rows_append r s : rows (append_row r s) = (rows s ++ [r])%list.
Proof. unfold rows, append_row; simpl. by destruct (st_csv s). Qed.

Lemma requests_log e s : st_requests (log e s) = st_requests s.
Proof. reflexivity. Qed.

Create Rewrite HintDb rows.
#[local] Hint Rewrite rows_log rows_request rows_bump rows_write rows_append requests_log : rows.

(** [download] appends at most the one row describing the link. *)
Lemma download_rows x md fn sf sp url s :
  rows (download x md fn sf sp url s) = rows s \/
  rows (download x md fn sf sp url s) = (rows s ++ [row_of md fn sp x.(x_now)])%list.
Proof.
  unfold download. repeat case_match; simplify_eq; autorewrite with rows; auto.
Qed.

(** The effect of one link on the CSV and on the requests: either nothing
    is requested and no row is written, or the link has a content type
    ["qp"]/["ms"] and at most one row is written, whose content type is
    the upper-cased one and whose file path is
    [base_path/level/board/paper_number/content_type/filename]. *)
Lemma process_link_shape x base key dry href0 text s s' :
  process_link x base key dry (href0, text) s = Some s' ->
  (rows s' = rows s /\ st_requests s' = st_requests s) \/
  (exists ct d, link_content_type text = Some (ct, d) /\
     (rows s' = rows s \/
      exists r pn fn, rows s' = (rows s ++ [r])%list /\
        r.(r_content_type) = Some (upper ct) /\
        r.(r_file_path) = join [join [base; r.(r_level); r.(r_exam_board); pn; ct]; fn])).
Proof.
  unfold process_link. intros H.
  repeat (case_match; simplify_eq; try (left; autorewrite with rows; split; reflexivity)).
  all: right; eexists _, _; split; [reflexivity|].
  all: try (left; reflexivity).
  all: match goal with
       | |- context [download ?x ?md ?fn ?sf ?sp ?u ?s0] =>
           destruct (download_rows x md fn sf sp u s0) as [E|E]; rewrite E; [left; reflexivity|right]
       end.
  all: eexists _, _, _; split; [reflexivity|]; simpl; split; reflexivity.
Qed.

Lemma content_type_both text :
  contains "QP" text = true -> link_content_type text = Some ("qp", "question papers").
Proof. intros H. unfold link_content_type. by rewrite H. Qed.

Lemma content_type_none text :
  contains "QP" text = false -> contains "MS" text = false -> link_content_type text = None.
Proof. intros H1 H2. unfold link_content_type. by rewrite H1, H2. Qed.

(** C10: when the anchor text holds both markers, "QP" is tested first:
    the link is a question paper ("qp" folder), [extract_metadata] says
    "QP", and any row written for the link has content type "QP". *)
Theorem qp_precedes_ms (text : string) :
  contains "QP" text = true -> contains "MS" text = true ->
  link_content_type text = Some ("qp", "question papers") /\
  (forall href key pn pdn md,
     extract_metadata href text key pn pdn = Some md -> md.(md_content_type) = Some "QP") /\
  (forall x base key dry href s s',
     process_link x base key dry (href, text) s = Some s' ->
     forall r, In r (rows s') -> ~ In r (rows s) -> r.(r_content_type) = Some "QP").
Proof.
  intros HQ HM. split; [by apply content_type_both|]. split.
  - intros href key pn pdn md. unfold extract_metadata.
    repeat case_match; intros E; simplify_eq; simpl; try rewrite HQ; reflexivity.
  - intros x base key dry href s s' Hp r Hin Hnot.
    destruct (process_link_shape _ _ _ _ _ _ _ _ Hp) as [[E _]|[ct [d [Hct Hr]]]].
    + rewrite E in Hin. contradiction.
    + rewrite content_type_both in Hct by exact HQ. injection Hct as <- <-.
      destruct Hr as [E|[r' [pn [fn [E [Hc _]]]]]].
      * rewrite E in Hin. contradiction.
      * rewrite E in Hin. apply in_app_or in Hin as [Hin|[<-|[]]]; [contradiction|].
        exact Hc.
Qed.

Lemma qp_precedes_ms_witness :
  contains "QP" "2019 QP and MS" = true /\ contains "MS" "2019 QP and MS" = true /\
  link_content_type "2019 QP and MS" = Some ("qp", "question papers").
Proof.
  split; [reflexivity|]. split; [reflexivity|].
  apply (qp_precedes_ms "2019 QP and MS"); reflexivity.
Defined.

(** A page link whose text carries a content-type marker. *)
Definition has_marker (a : string * string) : bool :=
  contains "QP" (snd a) || contains "MS" (snd a).

Lemma keep_link_marker key a : keep_link key a = true -> has_marker a = true.
Proof.
  destruct a as [h t]. unfold keep_link, has_marker; simpl.
  destruct (String.eqb key "aqa_alevel"); [intros H; apply andb_true_iff in H; tauto|auto].
Qed.

Lemma filter_keep_marker key page :
  List.filter (keep_link key) page = List.filter (keep_link key) (List.filter has_marker page).
Proof.
  induction page as [|a page IH]; [reflexivity|]. simpl.
  destruct (keep_link key a) eqn:Hk.
  - rewrite (keep_link_marker _ _ Hk). simpl. rewrite Hk. f_equal. exact IH.
  - destruct (has_marker a); simpl; [rewrite Hk|]; exact IH.
Qed.

(** C4 (amended): links whose anchor text has neither "QP" nor "MS" are
    dropped when the page's links are collected: the run of
    [scrape_papers] is the same as on the page without them (no request,
    no row, no message).  The per-link step itself checks the paper
    number first; for such a text it makes no request and writes no row,
    and when the paper number of its URL (for a "pdf-pages" redirect, of
    the URL in its "?pdf=" parameter) resolves, it reports "Unknown
    content type". *)
Theorem no_marker_never_downloaded (text : string) :
  contains "QP" text = false -> contains "MS" text = false ->
  (forall x base key dry page s,
     scrape_papers x base key dry page s
     = scrape_papers x base key dry (List.filter has_marker page) s) /\
  (forall x base key dry href s s',
     process_link x base key dry (href, text) s = Some s' ->
     rows s' = rows s /\ st_requests s' = st_requests s) /\
  (forall x base key dry href0 href s pn,
     link_href x href0 = Some href ->
     determine_paper_number href text key = Some pn ->
     process_link x base key dry (href0, text) s = Some (log (EvSkipContent text) s)).
Proof.
  intros HQ HM. split; [|split].
  - intros. unfold scrape_papers, collect_links. by rewrite <- filter_keep_marker.
  - intros x base key dry href s s' Hp.
    destruct (process_link_shape _ _ _ _ _ _ _ _ Hp) as [H|[ct [d [Hct _]]]]; [exact H|].
    rewrite content_type_none in Hct by assumption. discriminate.
  - intros x base key dry href0 href s [pn pdn] Hh Hd.
    unfold process_link. rewrite Hh, Hd, content_type_none by assumption. reflexivity.
Qed.

Lemma no_marker_never_downloaded_witness :
  contains "QP" "2020 June" = false /\ contains "MS" "2020 June" = false /\
  process_link (mk_ext (fun _ _ => None) (fun u => u) "") "/b" "edexcel_alevel" false
    ("https://x/pdf-pages/?pdf=https://x/Paper-1.pdf", "2020 June") (mk_state [] ∅ None [] [] 0)
  = Some (log (EvSkipContent "2020 June") (mk_state [] ∅ None [] [] 0)).
Proof.
  split; [reflexivity|]. split; [reflexivity|].
  eapply (proj2 (proj2 (no_marker_never_downloaded "2020 June" eq_refl eq_refl)));
    reflexivity.
Defined.

(** C4 as stated fails: a marker-free link is not classified at all, so no
    "Unknown content type" failure is reported for it. *)
Lemma no_marker_no_failure_reported :
  option_map st_log
    (scrape_papers (mk_ext (fun _ _ => Some (200, [])) (fun u => u) "") "/b"
       "edexcel_alevel" false [("https://x/Paper-1.pdf", "2020 June")]
       (mk_state [] ∅ None [] [] 0))
  = Some [].
Proof. vm_compute. reflexivity. Qed.

(** C3 (amended): paper identity is resolved per board.  OCR and OCR MEI
    try "Component N" in the anchor text, then a token of the URL
    ("component-N" in the lower-cased URL for OCR, "Paper-N" for OCR MEI),
    then subject keywords of the lower-cased URL, in this order:
    - OCR: "pure-mathematics" without "statistics" and "mechanics" gives
      paper 1, else "statistics" or "stats" gives paper 2, else "mechanics"
      or "mech" gives paper 3;
    - OCR MEI: "mechanics", "mech" or "component-1" gives paper 1, else
      "statistics", "stats" or "component-2" gives paper 2, else
      "comprehension", "comp" or "component-3" gives paper 3.
    AQA and Edexcel only look for "Paper-N" in the URL, whatever the anchor
    text.  A link left unresolved (its URL being, for a "pdf-pages"
    redirect, the one in its "?pdf=" parameter) is logged and skipped. *)
Theorem paper_identity_by_board :
  (forall k href text n, (k = "ocr_alevel" \/ k = "ocr_mei_alevel") ->
     search_lit_digits "Component " text = Some n ->
     determine_paper_number href text k = Some (numbered n)) /\
  (forall href text n, search_lit_digits "Component " text = None ->
     search_lit_digits "component-" (lower href) = Some n ->
     determine_paper_number href text "ocr_alevel" = Some (numbered n)) /\
  (forall href text n, search_lit_digits "Component " text = None ->
     search_lit_digits "Paper-" href = Some n ->
     determine_paper_number href text "ocr_mei_alevel" = Some (numbered n)) /\
  (forall href text, search_lit_digits "Component " text = None ->
     search_lit_digits "component-" (lower href) = None ->
     let h := lower href in
     determine_paper_number href text "ocr_alevel" =
       if contains "pure-mathematics" h && negb (contains "statistics" h)
          && negb (contains "mechanics" h) then Some ("paper 1", "Paper 1")
       else if contains "statistics" h || contains "stats" h then Some ("paper 2", "Paper 2")
       else if contains "mechanics" h || contains "mech" h then Some ("paper 3", "Paper 3")
       else None) /\
  (forall href text, search_lit_digits "Component " text = None ->
     search_lit_digits "Paper-" href = None ->
     let h := lower href in
     determine_paper_number href text "ocr_mei_alevel" =
       if contains "mechanics" h || contains "mech" h || contains "component-1" h
       then Some ("paper 1", "Paper 1")
       else if contains "statistics" h || contains "stats" h || contains "component-2" h
       then Some ("paper 2", "Paper 2")
       else if contains "comprehension" h || contains "comp" h || contains "component-3" h
       then Some ("paper 3", "Paper 3")
       else None) /\
  (forall k href text, (k = "aqa_alevel" \/ k = "edexcel_alevel") ->
     determine_paper_number href text k
     = match search_lit_digits "Paper-" href with
       | Some n => Some (replace_char "-" " " (lower ("Paper-" ++ n)), "Paper " ++ n)
       | None => None
       end) /\
  (forall x base k dry href0 href text s,
     link_href x href0 = Some href -> determine_paper_number href text k = None ->
     process_link x base k dry (href0, text) s = Some (log (EvSkipPaper text) s)).
Proof.
  split; [|split; [|split; [|split; [|split; [|split]]]]].
  - intros k href text n [-> | ->] Hn; unfold determine_paper_number; simpl; by rewrite Hn.
  - intros href text n Ht Hu. unfold determine_paper_number. simpl. by rewrite Ht, Hu.
  - intros href text n Ht Hu. unfold determine_paper_number. simpl. by rewrite Ht, Hu.
  - intros href text Ht Hu. unfold determine_paper_number. simpl. by rewrite Ht, Hu.
  - intros href text Ht Hu. unfold determine_paper_number. simpl. by rewrite Ht, Hu.
  - intros k href text [-> | ->]; reflexivity.
  - intros x base k dry href0 href text s Hh Hd. unfold process_link. by rewrite Hh, Hd.
Qed.

Lemma paper_identity_by_board_witness :
  determine_paper_number "https://x/mock.pdf" "Component 3 QP 2019" "ocr_alevel"
    = Some (numbered "3") /\
  determine_paper_number "https://x/Paper-2-QP.pdf" "June 2019 QP" "ocr_mei_alevel"
    = Some (numbered "2") /\
  determine_paper_number "https://x/Pure-Mathematics.pdf" "June 2019 QP" "ocr_alevel"
    = Some ("paper 1", "Paper 1") /\
  determine_paper_number "https://x/Stats.pdf" "June 2019 QP" "ocr_mei_alevel"
    = Some ("paper 2", "Paper 2") /\
  process_link (mk_ext (fun _ _ => None) (fun u => u) "") "/b" "edexcel_alevel" false
    ("https://x/pdf-pages/?pdf=https://x/mock.pdf", "Component 3 QP 2019")
    (mk_state [] ∅ None [] [] 0)
  = Some (log (EvSkipPaper "Component 3 QP 2019") (mk_state [] ∅ None [] [] 0)).
Proof.
  destruct paper_identity_by_board as (H1 & H2 & H3 & H4 & H5 & _ & H7).
  split; [apply H1; [by left|reflexivity]|].
  split; [apply H3; reflexivity|].
  split; [rewrite H4; reflexivity|].
  split; [rewrite H5; reflexivity|].
  eapply H7; vm_compute; reflexivity.
Defined.

(** C3 as stated fails for Edexcel and AQA: a "Component N" anchor text
    and a subject keyword in the URL are not used there. *)
Lemma paper_identity_anchor_ignored :
  determine_paper_number "https://x/mock.pdf" "Component 3 QP 2019" "edexcel_alevel" = None /\
  determine_paper_number "https://x/mock.pdf" "Component 3 QP 2019" "ocr_alevel"
    = Some ("paper 3", "Paper 3") /\
  determine_paper_number "https://x/mechanics.pdf" "June 2019 QP" "edexcel_alevel" = None.
Proof. split; [|split]; reflexivity. Qed.

(** Strings made of digits only. *)
Fixpoint all_digits (s : string) : bool :=
  match s with
  | EmptyString => true
  | String c s' => is_digit c && all_digits s'
  end.

Lemma take_digits_all s : all_digits (take_digits s) = true.
Proof.
  induction s as [|c s IH]; [reflexivity|]. cbn [take_digits].
  destruct (is_digit c) eqn:E; [|reflexivity]. cbn [all_digits]. rewrite E, IH. reflexivity.
Qed.

Lemma search_lit_digits_some lit s n :
  search_lit_digits lit s = Some n -> n <> "" /\ all_digits n = true.
Proof.
  induction s as [|c s IH]; intros H; cbn [search_lit_digits] in H;
    repeat case_match; simplify_eq; auto;
    match goal with E : take_digits ?t = _ |- _ =>
      split; [discriminate | rewrite <- E; apply take_digits_all] end.
Qed.

Lemma lower_digits n : all_digits n = true -> lower n = n.
Proof.
  unfold lower. induction n as [|c n IH]; [reflexivity|]. cbn [all_digits map_chars].
  intros [Hc Hn]%andb_prop. rewrite IH by exact Hn. f_equal.
  unfold is_digit in Hc. apply andb_prop in Hc as [H1 H2].
  apply Nat.leb_le in H1, H2. unfold lower_char, is_upper.
  destruct (Nat.leb 65 (nat_of_ascii c)) eqn:E; [apply Nat.leb_le in E; lia|reflexivity].
Qed.

Lemma replace_dash_digits n : all_digits n = true -> replace_char "-" " " n = n.
Proof.
  unfold replace_char. induction n as [|c n IH]; [reflexivity|]. cbn [all_digits map_chars].
  intros [Hc Hn]%andb_prop. rewrite IH by exact Hn. f_equal.
  destruct (Ascii.eqb c "-") eqn:E; [|reflexivity].
  apply Ascii.eqb_eq in E. subst c. discriminate Hc.
Qed.

Lemma paper_dash_digits n :
  all_digits n = true -> replace_char "-" " " (lower ("Paper-" ++ n)) = ("paper " ++ n)%string.
Proof.
  intros Hd. unfold lower, replace_char. rewrite !map_chars_app.
  fold (lower n). fold (replace_char "-" " " (lower n)).
  rewrite (lower_digits n Hd), (replace_dash_digits n Hd). reflexivity.
Qed.

Lemma paper_number_digits href link_text config_key pn dn :
  determine_paper_number href link_text config_key = Some (pn, dn) ->
  exists n, n <> "" /\ all_digits n = true /\
    pn = ("paper " ++ n)%string /\ dn = ("Paper " ++ n)%string.
Proof.
  unfold determine_paper_number, numbered. intros H.
  repeat case_match; simplify_eq;
    try (exists "1"; repeat split; [discriminate|reflexivity..]);
    try (exists "2"; repeat split; [discriminate|reflexivity..]);
    try (exists "3"; repeat split; [discriminate|reflexivity..]);
    match goal with E : search_lit_digits _ _ = Some ?n |- _ =>
      destruct (search_lit_digits_some _ _ _ E) as [Hne Hd]; exists n end;
    repeat split; try assumption; try reflexivity.
  apply paper_dash_digits. assumption.
Qed.

Lemma extract_metadata_board href text key pn dn md :
  extract_metadata href text key pn dn = Some md ->
  board_level_of key = Some (md_exam_board md, md_level md).
Proof.
  unfold extract_metadata, board_level_of. intros H.
  repeat case_match; simplify_eq; reflexivity.
Qed.

Lemma link_content_type_cases text ct disp :
  link_content_type text = Some (ct, disp) -> ct = "qp" \/ ct = "ms".
Proof. unfold link_content_type. intros H. repeat case_match; simplify_eq; auto. Qed.

End UnifiedFacts.

Module MonthFacts.
Import Str StrFacts.

Lemma months12_capitalized : Forall (fun a => capitalize a = a) Pmt.months12.
Proof. repeat constructor. Qed.

Lemma prefixb_contains x s : prefixb x s = true -> contains x s = true.
Proof. intros H. destruct s; cbn [contains]; rewrite H; reflexivity. Qed.

Lemma first_alt_match ci alts s m :
  first_alt ci alts s = Some m ->
  exists a, In a alts /\
    (if ci then prefixb (lower a) (lower s) else prefixb a s) = true /\
    (if ci then lower m = lower a else m = a).
Proof.
  intros H.
  induction alts as [|a alts IH]; simpl in H; [discriminate|].
  destruct ci.
  - unfold prefixb_ci in H. destruct (prefixb (lower a) (lower s)) eqn:Hp.
    + injection H as <-. exists a. split; [by left|]. split; [exact Hp|].
      rewrite lower_substring, <- (length_lower a). by apply prefixb_substring.
    + destruct (IH H) as [b [Hb E]]. exists b. split; [by right|exact E].
  - destruct (prefixb a s) eqn:Hp.
    + injection H as <-. exists a. split; [by left|]. split; [exact Hp|].
      by apply prefixb_substring.
    + destruct (IH H) as [b [Hb E]]. exists b. split; [by right|exact E].
Qed.

Lemma search_alt_match ci alts s m :
  search_alt ci alts s = Some m ->
  exists a, In a alts /\
    (if ci then contains (lower a) (lower s) else contains a s) = true /\
    (if ci then lower m = lower a else m = a).
Proof.
  induction s as [|c s IH]; cbn [search_alt];
    destruct (first_alt ci alts _) eqn:Hf; intros H; simplify_eq.
  - destruct (first_alt_match _ _ _ _ Hf) as [a [Ha [Hp Hm]]]. exists a.
    split; [exact Ha|]. split; [|exact Hm]. destruct ci; by apply prefixb_contains.
  - destruct (first_alt_match _ _ _ _ Hf) as [a [Ha [Hp Hm]]]. exists a.
    split; [exact Ha|]. split; [|exact Hm]. destruct ci; by apply prefixb_contains.
  - destruct (IH H) as [a [Ha [Hc Hm]]]. exists a. split; [exact Ha|]. split; [|exact Hm].
    destruct ci.
    + change (lower (String c s)) with (String (lower_char c) (lower s)).
      cbn [contains]. rewrite Hc. apply orb_true_r.
    + cbn [contains]. rewrite Hc. apply orb_true_r.
Qed.

(** C6, as the code behaves: the unified scraper reads a month only from a
    case-sensitive occurrence of "June", "October", "January", "November"
    or "Nov" (recorded as November) in the anchor text; the orchestrator
    records a month only when its full name occurs in the text, in any
    case, so an abbreviation such as "Nov" is never read. *)
Theorem month_extraction_by_pipeline :
  (forall t m, Unified.extract_month t = Some m ->
     exists a, In a Unified.month_alts /\ contains a t = true /\
       m = (if String.eqb a "Nov" then "November" else a)) /\
  (forall t m, Pmt.extract_month t = Some m ->
     In m Pmt.months12 /\ contains (lower m) (lower t) = true).
Proof.
  split.
  - intros t m. unfold Unified.extract_month.
    destruct (search_alt false Unified.month_alts t) as [m'|] eqn:E; [|discriminate].
    intros [= <-]. destruct (search_alt_match _ _ _ _ E) as [a [Ha [Hc Hm]]].
    change (m' = a) in Hm. change (contains a t = true) in Hc. subst m'.
    exists a. auto.
  - intros t m. unfold Pmt.extract_month.
    destruct (search_alt true Pmt.months12 t) as [m'|] eqn:E; [|discriminate].
    intros [= <-]. destruct (search_alt_match _ _ _ _ E) as [a [Ha [Hc Hm]]].
    change (lower m' = lower a) in Hm. change (contains (lower a) (lower t) = true) in Hc.
    assert (Hcap : capitalize m' = a).
    { rewrite <- capitalize_lower, Hm, capitalize_lower.
      pose proof months12_capitalized as HF. rewrite List.Forall_forall in HF. by apply HF. }
    rewrite Hcap. split; assumption.
Qed.

Lemma month_extraction_by_pipeline_witness :
  Unified.extract_month "Nov 2019 QP" = Some "November" /\
  (exists a, In a Unified.month_alts /\ contains a "Nov 2019 QP" = true /\
     "November" = (if String.eqb a "Nov" then "November" else a)) /\
  Pmt.extract_month "2019 JUNE QP" = Some "June" /\
  In "June" Pmt.months12 /\ contains (lower "June") (lower "2019 JUNE QP") = true.
Proof.
  destruct month_extraction_by_pipeline as [H1 H2].
  split; [vm_compute; reflexivity|].
  split; [apply H1; vm_compute; reflexivity|].
  split; [vm_compute; reflexivity|].
  apply H2; vm_compute; reflexivity.
Defined.

(** C6 fails on both pipelines: the unified scraper misses "March" and a
    lower-case "june"; the orchestrator does not read "Nov" as November. *)
Lemma month_extraction_misses :
  Unified.extract_month "2019 March QP" = None /\
  Unified.extract_month "2019 june QP" = None /\
  Pmt.extract_month "Nov 2019 QP" = None.
Proof. vm_compute. auto. Qed.

End MonthFacts.

Module PmtFacts.
Import Str Pmt PmtSamples.

Lemma ledger_log e s : st_ledger (log e s) = st_ledger s.
Proof. reflexivity. Qed.
Lemma files_log e s : st_files (log e s) = st_files s.
Proof. reflexivity. Qed.
Lemma transfers_log e s : st_transfers (log e s) = st_transfers s.
Proof. reflexivity. Qed.

(** The split of the orchestrator's only configuration key. *)
Lemma split_edexcel :
  index (split "_" "edexcel_alevel") 0 = Some "edexcel" /\
  index (split "_" "edexcel_alevel") 1 = Some "alevel".
Proof. split; reflexivity. Qed.

Lemma lookup_config_key key cfg :
  lookup_config key CONFIGS = Some cfg -> key = "edexcel_alevel".
Proof.
  unfold lookup_config, CONFIGS. case_match eqn:E; [|intros [=]].
  intros _. symmetry. by apply String.eqb_eq.
Qed.

(** In a resumed run the ledger grows by exactly the link's contribution. *)
Lemma process_link_ledger x bu bp key sec v K l s s' L :
  process_link x bu bp key sec true v K l s = Ok s' ->
  st_ledger s = Some L ->
  st_ledger s' = Some (L ++ link_entry x bu bp key sec v K l)%list.
Proof.
  destruct l as [[href text] ct]. unfold process_link, link_entry. intros H HL.
  destruct (index (split "_" key) 0) as [board|]; [|discriminate].
  destruct (index (split "_" key) 1) as [level|]; [|discriminate].
  destruct (extract_year text) as [y|].
  2:{ injection H as <-. by rewrite ledger_log, HL, app_nil_r. }
  simpl in H. destruct (mem _ K).
  { injection H as <-. by rewrite ledger_log, HL, app_nil_r. }
  destruct (folder_and_subtype _ _ _ _ _ _ _) as [folder sub'].
  unfold download_file in H. destruct (x_transfer x _) as [b|[b|]]; simpl in H.
  - unfold validate_pdf, calculate_file_hash in H. simpl in H.
    rewrite lookup_insert_eq in H.
    destruct v; destruct (x_valid x b) eqn:Hv; simpl in H; injection H as <-; simpl;
      rewrite ?HL, ?app_nil_r; reflexivity.
  - injection H as <-. simpl. by rewrite HL, app_nil_r.
  - injection H as <-. simpl. by rewrite HL, app_nil_r.
Qed.

Definition split_ok (key : string) : Prop :=
  exists b l, index (split "_" key) 0 = Some b /\ index (split "_" key) 1 = Some l.

Lemma process_link_ok x bu bp key sec r v K l s :
  split_ok key -> exists s', process_link x bu bp key sec r v K l s = Ok s'.
Proof.
  intros (b & lv & Hb & Hl). destruct l as [[href text] ct].
  unfold process_link. rewrite Hb, Hl. repeat case_match; eauto.
Qed.

Lemma run_links_ledger x bu bp key sec v K links s L :
  split_ok key -> st_ledger s = Some L ->
  exists s', run_links x bu bp key sec true v K links s = Ok s' /\
    st_ledger s' = Some (L ++ flat_map (link_entry x bu bp key sec v K) links)%list.
Proof.
  intros Hk. revert s L. induction links as [|l links IH]; intros s L HL.
  - exists s. simpl. by rewrite app_nil_r.
  - simpl. destruct (process_link_ok x bu bp key sec true v K l s Hk) as [s1 E].
    rewrite E. pose proof (process_link_ledger _ _ _ _ _ _ _ _ _ _ _ E HL) as H1.
    destruct (IH s1 _ H1) as [s' [E' H']]. exists s'. split; [exact E'|].
    by rewrite H', app_assoc.
Qed.

Lemma run_sections_ledger x bu bp key v K page secs s L :
  split_ok key -> st_ledger s = Some L ->
  st_ledger (res_state (run_sections x bu bp key true v K page secs s))
  = Some (L ++ sections_entries x bu bp key v K page secs)%list.
Proof.
  intros Hk. revert s L. induction secs as [|sec secs IH]; intros s L HL; simpl.
  - by rewrite HL, app_nil_r.
  - destruct (section_links page sec) as [| |links].
    + apply IH. exact HL.
    + simpl. by rewrite HL, app_nil_r.
    + destruct (run_links_ledger x bu bp key sec v K links s L Hk HL) as [s' [E H']].
      rewrite E. rewrite (IH s' _ H'). by rewrite app_assoc.
Qed.

Lemma flat_map_all_nil {A B} (f : A -> list B) (l : list A) :
  (forall a, In a l -> f a = []) -> flat_map f l = [].
Proof.
  induction l as [|a l IH]; simpl; intros H; [reflexivity|].
  rewrite H by (by left). apply IH. intros b Hb. apply H. by right.
Qed.

Lemma mem_In f l : mem f l = true <-> In f l.
Proof.
  unfold mem. rewrite existsb_exists. split.
  - intros [y [Hy E]]. apply String.eqb_eq in E. by subst.
  - intros H. exists f. split; [exact H|]. apply String.eqb_refl.
Qed.

(** The row a link contributes names the link's filename, which was not
    yet known. *)
Lemma link_entry_filename x bu bp key sec v K href text ct e :
  In e (link_entry x bu bp key sec v K (href, text, ct)) ->
  e.(e_filename) = link_filename (full_url x bu href) text /\
  mem (link_filename (full_url x bu href) text) K = false.
Proof.
  unfold link_entry. repeat case_match; simpl; try tauto.
  all: intros [<-|[]]; simpl; split; reflexivity.
Qed.

(** With more known filenames, including the filename of every row the
    link contributed before, the link contributes nothing. *)
Lemma link_entry_rerun x bu bp key sec v K1 K2 l :
  (forall f, mem f K1 = true -> mem f K2 = true) ->
  (forall e, In e (link_entry x bu bp key sec v K1 l) -> mem e.(e_filename) K2 = true) ->
  link_entry x bu bp key sec v K2 l = [].
Proof.
  destruct l as [[href text] ct]. intros Hsub Hprev.
  destruct (mem (link_filename (full_url x bu href) text) K2) eqn:H2.
  - unfold link_entry. repeat case_match; simplify_eq; try reflexivity; congruence.
  - assert (H1 : mem (link_filename (full_url x bu href) text) K1 = false).
    { destruct (mem _ K1) eqn:H1; [|reflexivity]. rewrite (Hsub _ H1) in H2. discriminate. }
    destruct (link_entry x bu bp key sec v K2 (href, text, ct)) as [|e es] eqn:E; [reflexivity|].
    exfalso.
    assert (Hsame : link_entry x bu bp key sec v K1 (href, text, ct)
                    = link_entry x bu bp key sec v K2 (href, text, ct)).
    { unfold link_entry. rewrite H1, H2. reflexivity. }
    assert (He : In e (link_entry x bu bp key sec v K1 (href, text, ct))).
    { rewrite Hsame, E. by left. }
    pose proof (Hprev e He) as Hm.
    destruct (link_entry_filename _ _ _ _ _ _ _ _ _ _ _ He) as [Hf _].
    rewrite Hf, H2 in Hm. discriminate.
Qed.

Lemma sections_entries_rerun x bu bp key v K1 K2 page secs :
  (forall f, mem f K1 = true -> mem f K2 = true) ->
  (forall e, In e (sections_entries x bu bp key v K1 page secs) -> mem e.(e_filename) K2 = true) ->
  sections_entries x bu bp key v K2 page secs = [].
Proof.
  intros Hsub. induction secs as [|sec secs IH]; simpl; intros Hprev; [reflexivity|].
  destruct (section_links page sec) as [| |links]; [by apply IH| reflexivity |].
  rewrite IH; [|intros e He; apply Hprev; apply in_or_app; by right].
  rewrite app_nil_r. apply flat_map_all_nil. intros l Hl.
  apply (link_entry_rerun _ _ _ _ _ _ K1 K2 _ Hsub).
  intros e He. apply Hprev. apply in_or_app. left. apply in_flat_map. by exists l.
Qed.

Definition ledger_list (s : state) : list entry :=
  match st_ledger s with Some L => L | None => [] end.

Lemma ledger_makedirs_fold ds s :
  st_ledger (fold_left (fun st d => makedirs d st) ds s) = st_ledger s.
Proof. revert s. induction ds as [|d ds IH]; intros s; simpl; [reflexivity|]. by rewrite IH. Qed.

(** The ledger after a resumed run: the rows present before, then the
    contributions of the page's links with the filenames known at start. *)
Lemma scrape_ledger x bp key v page s cfg :
  lookup_config key CONFIGS = Some cfg ->
  st_ledger (res_state (scrape_pmt_papers x bp key true v page s))
  = Some (ledger_list s ++
          match page with
          | None => []
          | Some els =>
              sections_entries x cfg.(cfg_base_url) bp key v (map e_filename (ledger_list s))
                els cfg.(cfg_sections)
          end)%list.
Proof.
  intros Hc. pose proof (lookup_config_key _ _ Hc) as ->.
  unfold scrape_pmt_papers. rewrite Hc.
  rewrite (proj1 split_edexcel), (proj2 split_edexcel).
  set (s1 := fold_left _ _ s).
  assert (H1 : st_ledger s1 = st_ledger s) by apply ledger_makedirs_fold.
  assert (H2 : st_ledger (initialize_tracking_csv (negb true) s1) = Some (ledger_list s)).
  { unfold initialize_tracking_csv, ledger_list. simpl. rewrite <- H1.
    case_match eqn:E; [exact E|reflexivity]. }
  assert (H3 : get_downloaded_files (initialize_tracking_csv (negb true) s1)
               = map e_filename (ledger_list s)).
  { unfold get_downloaded_files. by rewrite H2. }
  simpl (if true then _ else _). rewrite H3.
  destruct page as [els|].
  - rewrite (run_sections_ledger _ _ _ _ _ _ _ _ _ (ledger_list s)); [reflexivity| |exact H2].
    exists "edexcel", "alevel". split; reflexivity.
  - rewrite app_nil_r. exact H2.
Qed.

Lemma skip_known_link x bu bp key sec v K href text ct s :
  mem (link_filename (full_url x bu href) text) K = true ->
  let s' := res_state (process_link x bu bp key sec true v K (href, text, ct) s) in
  st_transfers s' = st_transfers s /\ st_ledger s' = st_ledger s /\ st_files s' = st_files s.
Proof.
  intros Hm. unfold process_link. rewrite Hm.
  repeat case_match; simplify_eq/=; auto; congruence.
Qed.

(** C1: in a resumed run a link whose filename is already in the ledger
    is skipped with no transfer, no file written and no row; so a second
    resumed run over the same page, with the same transfer and validation
    results, leaves the ledger as the first run left it; and whatever the
    second run's transfers do, it records no filename the ledger already
    holds. *)
Theorem resume_skips_known_links :
  (forall x bu bp key sec v K href text ct s,
     mem (link_filename (full_url x bu href) text) K = true ->
     let s' := res_state (process_link x bu bp key sec true v K (href, text, ct) s) in
     st_transfers s' = st_transfers s /\ st_ledger s' = st_ledger s /\ st_files s' = st_files s) /\
  (forall x bp key v page s0,
     let s1 := res_state (scrape_pmt_papers x bp key true v page s0) in
     st_ledger (res_state (scrape_pmt_papers x bp key true v page s1)) = st_ledger s1) /\
  (forall x x' bp key v page s0 cfg,
     lookup_config key CONFIGS = Some cfg ->
     let s1 := res_state (scrape_pmt_papers x bp key true v page s0) in
     exists E2, st_ledger (res_state (scrape_pmt_papers x' bp key true v page s1))
                = Some (ledger_list s1 ++ E2)%list /\
       forall e, In e E2 -> ~ In e.(e_filename) (map e_filename (ledger_list s1))).
Proof.
  split; [|split].
  - intros. by apply skip_known_link.
  - intros x bp key v page s0 s1.
    destruct (lookup_config key CONFIGS) as [cfg|] eqn:Hc.
    2:{ subst s1. unfold scrape_pmt_papers. rewrite Hc. reflexivity. }
    assert (E1 := scrape_ledger x bp key v page s0 cfg Hc). fold s1 in E1.
    rewrite (scrape_ledger x bp key v page s1 cfg Hc).
    rewrite E1. f_equal.
    assert (HL : ledger_list s1 = (ledger_list s0 ++
          match page with
          | None => []
          | Some els => sections_entries x (cfg_base_url cfg) bp key v
                          (map e_filename (ledger_list s0)) els (cfg_sections cfg)
          end)%list) by (unfold ledger_list at 1; rewrite E1; reflexivity).
    destruct page as [els|]; [|by rewrite HL, !app_nil_r].
    rewrite (sections_entries_rerun _ _ _ _ _ (map e_filename (ledger_list s0))).
    + by rewrite !app_nil_r.
    + intros f Hf. apply mem_In. apply mem_In in Hf. rewrite HL, map_app.
      apply in_or_app. by left.
    + intros e He. apply mem_In. rewrite HL, map_app. apply in_or_app. right.
      by apply in_map.
  - intros x x' bp key v page s0 cfg Hc s1.
    rewrite (scrape_ledger x' bp key v page s1 cfg Hc).
    eexists. split; [reflexivity|].
    destruct page as [els|]; [|intros e []].
    intros e He Hin.
    assert (Hgen : forall secs, In e (sections_entries x' (cfg_base_url cfg) bp key v
                      (map e_filename (ledger_list s1)) els secs) ->
                    mem e.(e_filename) (map e_filename (ledger_list s1)) = false).
    { induction secs as [|sec secs IH]; simpl; [intros []|].
      destruct (section_links els sec) as [| |links]; [exact IH|intros []|].
      intros H. apply in_app_or in H as [H|H]; [|by apply IH].
      apply in_flat_map in H as [[[href text] ct] [_ H]].
      destruct (link_entry_filename _ _ _ _ _ _ _ _ _ _ _ H) as [-> Hm]. exact Hm. }
    pose proof (Hgen _ He) as Hm. apply mem_In in Hin. congruence.
Qed.

Lemma resume_skips_known_links_witness :
  mem (link_filename (full_url sample_ext "" "https://x/P1-June-2019-QP.pdf") "June 2019 QP")
      ["P1-June-2019-QP.pdf"] = true /\
  st_transfers (res_state (process_link sample_ext "" "/b" "edexcel_alevel" paper1_section true true
      ["P1-June-2019-QP.pdf"] ("https://x/P1-June-2019-QP.pdf", "June 2019 QP", "QP") empty_state))
    = st_transfers empty_state /\
  lookup_config "edexcel_alevel" CONFIGS <> None /\
  (let s1 := res_state (scrape_pmt_papers sample_ext "/b" "edexcel_alevel" true true
                          (Some sample_page) empty_state) in
   exists E2, st_ledger (res_state (scrape_pmt_papers sample_ext "/b" "edexcel_alevel" true true
                                      (Some sample_page) s1)) = Some (ledger_list s1 ++ E2)%list).
Proof.
  split; [reflexivity|]. split.
  { exact (proj1 (proj1 resume_skips_known_links sample_ext "" "/b" "edexcel_alevel" paper1_section
             true ["P1-June-2019-QP.pdf"] "https://x/P1-June-2019-QP.pdf" "June 2019 QP" "QP"
             empty_state eq_refl)). }
  split; [discriminate|].
  destruct (proj2 (proj2 resume_skips_known_links) sample_ext sample_ext "/b" "edexcel_alevel" true
              (Some sample_page) empty_state _ eq_refl) as [E2 [H _]].
  exists E2. exact H.
Defined.

(** * Locating a section on the page *)

Lemma skipn_nth_error {A} (l : list A) i e :
  nth_error l i = Some e -> skipn i l = e :: skipn (S i) l.
Proof.
  revert i. induction l as [|a l IH]; intros [|i] H; simpl in *; try discriminate.
  - by injection H as ->.
  - by apply IH.
Qed.

Lemma skipn_cons_inv {A} (l : list A) i e r :
  skipn i l = e :: r -> nth_error l i = Some e /\ skipn (S i) l = r.
Proof.
  revert i. induction l as [|a l IH]; intros [|i] H; simpl in *; try discriminate.
  - by injection H as -> ->.
  - by apply IH.
Qed.

Lemma h4_positions_from_app l1 l2 i :
  h4_positions_from (l1 ++ l2) i
  = (h4_positions_from l1 i ++ h4_positions_from l2 (i + length l1))%list.
Proof.
  revert i. induction l1 as [|e l1 IH]; intros i; simpl.
  - by rewrite Nat.add_0_r.
  - rewrite IH. replace (S i + length l1) with (i + S (length l1)) by lia.
    by destruct (is_h4 e).
Qed.

Lemma h4_positions_from_bound l i j :
  In j (h4_positions_from l i) -> i <= j < i + length l.
Proof.
  revert i. induction l as [|e l IH]; intros i; simpl; [intros []|].
  destruct (is_h4 e); [intros [<-|H]; [lia|]|intros H];
    apply IH in H; lia.
Qed.

Lemma find_from_none {A} (f : A -> bool) l i :
  (forall a, In a l -> f a = false) -> find_from f l i = None.
Proof.
  revert i. induction l as [|a l IH]; intros i H; simpl; [reflexivity|].
  rewrite H by (by left). apply IH. intros b Hb. apply H. by right.
Qed.

Lemma find_from_app {A} (f : A -> bool) l1 l2 i :
  (forall a, In a l1 -> f a = false) ->
  find_from f (l1 ++ l2) i = find_from f l2 (i + length l1).
Proof.
  revert i. induction l1 as [|a l1 IH]; intros i H; simpl.
  - by rewrite Nat.add_0_r.
  - rewrite H by (by left). rewrite IH by (intros b Hb; apply H; by right).
    f_equal. lia.
Qed.

(** The h4 positions from a heading onwards, as [rescan_paper3] scans
    them. *)
Lemma h4_split page p ids t :
  nth_error page p = Some (Heading 4 ids t) ->
  exists pre, h4_positions page = (pre ++ p :: h4_positions_from (skipn (S p) page) (S p))%list
              /\ forall j, In j pre -> j < p.
Proof.
  intros Hp. unfold h4_positions.
  assert (E : h4_positions_from page 0 = h4_positions_from (firstn p page ++ skipn p page)%list 0) by (by rewrite firstn_skipn). rewrite E.
  rewrite h4_positions_from_app.
  rewrite (skipn_nth_error _ _ _ Hp). simpl.
  assert (Hlen : length (firstn p page) = p).
  { apply firstn_length_le. enough (p < length page) by lia. apply nth_error_Some. congruence. }
  rewrite Hlen.
  exists (h4_positions_from (firstn p page) 0). split; [reflexivity|].
  intros j Hj. apply h4_positions_from_bound in Hj. lia.
Qed.

Lemma find_paper3 page q ids' t' :
  nth_error page q = Some (Heading 4 ids' t') ->
  contains "Paper 3" t' = true ->
  forall rest i, skipn i page = rest -> i <= q ->
  (forall j, i <= j < q -> is_h4 (nth j page Hr) = true ->
             contains "Paper 3" (text_of (nth j page Hr)) = false) ->
  find (fun j => contains "Paper 3" (text_of (nth j page Hr))) (h4_positions_from rest i) = Some q.
Proof.
  intros Hq Ht rest. induction rest as [|e rest IH]; intros i Hs Hiq Hbefore.
  - exfalso. assert (H0 : length (skipn i page) = 0) by (by rewrite Hs). rewrite length_skipn in H0.
    assert (q < length page) by (apply nth_error_Some; congruence). lia.
  - apply skipn_cons_inv in Hs as [He Hs].
    destruct (Nat.eq_dec i q) as [->|Hne].
    + rewrite Hq in He. injection He as <-. simpl.
      rewrite (nth_error_nth _ _ Hr Hq). simpl. by rewrite Ht.
    + assert (Hn : nth i page Hr = e) by (apply nth_error_nth; exact He).
      simpl. destruct (is_h4 e) eqn:H4.
      * assert (Hf : contains "Paper 3" (text_of (nth i page Hr)) = false)
          by (apply Hbefore; [lia|by rewrite Hn]).
        simpl. rewrite Hf.
        apply IH; [exact Hs|lia|]. intros j Hj. apply Hbefore. lia.
      * apply IH; [exact Hs|lia|]. intros j Hj. apply Hbefore. lia.
Qed.

(** The links [collect_block] gathers from a position on come from the
    [div]s at or after it and before any later heading. *)
Lemma collect_block_source page h tx ct :
  forall rest k, skipn k page = rest -> In (h, tx, ct) (collect_block rest) ->
  exists j ids ti lk, k <= j /\ nth_error page j = Some (Div ids ti lk) /\ In (h, tx) lk /\
    (forall m lv ids' t', k <= m -> nth_error page m = Some (Heading lv ids' t') -> j < m).
Proof.
  intros rest. induction rest as [|e rest IH]; intros k Hs Hin; [destruct Hin|].
  apply skipn_cons_inv in Hs as [He Hs].
  assert (Hstep : In (h, tx, ct) (collect_block rest) ->
    exists j ids ti lk, k <= j /\ nth_error page j = Some (Div ids ti lk) /\ In (h, tx) lk /\
      (forall m lv ids' t', k <= m -> nth_error page m = Some (Heading lv ids' t') -> j < m)).
  { intros H. destruct (IH (S k) Hs H) as (j & ids & ti & lk & Hj & Hd & Hl & Hm).
    exists j, ids, ti, lk. repeat split; [lia|exact Hd|exact Hl|].
    intros m lv ids' t' Hkm Hh. destruct (Nat.eq_dec m k) as [->|Hne].
    - destruct e; try (rewrite He in Hh; discriminate); simpl in Hin; destruct Hin.
    - apply (Hm m lv ids' t'); [lia|exact Hh]. }
  destruct e as [lv ids t|ids ti lk| |ids]; simpl in Hin; try destruct Hin.
  - destruct (div_content_type ti) as [c|]; [|by apply Hstep].
    apply in_app_or in Hin as [Hin|Hin]; [|by apply Hstep].
    exists k, ids, ti, lk. repeat split; [lia|exact He| |].
    + apply in_map_iff in Hin as [[h' t''] [E Hin]]. by injection E as -> -> _.
    + intros m lv ids' t' Hkm Hh. destruct (Nat.eq_dec m k) as [->|]; [congruence|lia].
  - by apply Hstep.
Qed.

(** C2: the Edexcel profile declares Paper 1 and Paper 3 with the one
    anchor id "paper1", and only Paper 3 is marked as a Paper 3 section.
    On a page where that anchor sits in an h4 heading not titled
    "Paper 3", where q is the first later h4 whose title contains
    "Paper 3", and where each of the two headings is directly followed by
    a div: a section with the shared id that is not a Paper 3 section reads
    its links from the block after the anchor's heading, and these come
    from divs strictly between the two headings; the Paper 3 section is
    re-anchored to heading q and reads its links from the divs after q. *)
Theorem shared_anchor_sections page cfg p q ids t ids' t' d1 d3 :
  lookup_config "edexcel_alevel" CONFIGS = Some cfg ->
  find_anchor page "paper1" = Some p ->
  nth_error page p = Some (Heading 4 ids t) ->
  contains "Paper 3" t = false ->
  p < q ->
  nth_error page q = Some (Heading 4 ids' t') ->
  contains "Paper 3" t' = true ->
  (forall j, p < j < q -> is_h4 (nth j page Hr) = true ->
             contains "Paper 3" (text_of (nth j page Hr)) = false) ->
  nth_error page (S p) = Some d1 -> is_div d1 = true ->
  nth_error page (S q) = Some d3 -> is_div d3 = true ->
  map (fun sec => (sec_name sec, is_paper3_section sec))
      (filter (fun sec => String.eqb (sec_identifier sec) "paper1") (cfg_sections cfg))
    = [("Paper 1", false); ("Paper 3", true)] /\
  (forall sec, sec_identifier sec = "paper1" ->
     section_links page sec
     = SecLinks (collect_block (skipn (S (if is_paper3_section sec then q else p)) page))) /\
  (forall h tx ct, In (h, tx, ct) (collect_block (skipn (S p) page)) ->
     exists j ids0 ti lk, p < j < q /\ nth_error page j = Some (Div ids0 ti lk) /\ In (h, tx) lk) /\
  (forall h tx ct, In (h, tx, ct) (collect_block (skipn (S q) page)) ->
     exists j ids0 ti lk, q < j /\ nth_error page j = Some (Div ids0 ti lk) /\ In (h, tx) lk).
Proof.
  intros Hc Ha Hp Ht Hpq Hq Ht' Hbetween Hd1 Hdiv1 Hd3 Hdiv3.
  split; [|split; [|split]].
  - unfold lookup_config, CONFIGS in Hc. simpl in Hc. injection Hc as <-. reflexivity.
  - intros sec Hid.
    assert (Hnd : forall r, nth_error page (S r) = Some (if is_paper3_section sec then d3 else d1) ->
                  is_div (if is_paper3_section sec then d3 else d1) = true ->
                  next_div page r = Some (S r)).
    { intros r Hr Hdv. unfold next_div. rewrite (skipn_nth_error _ _ _ Hr). simpl.
      by rewrite Hdv. }
    unfold section_links, section_heading. rewrite Hid, Ha.
    unfold parent_heading. rewrite Hp. simpl (is_heading _).
    destruct (is_paper3_section sec) eqn:H3.
    + destruct (h4_split _ _ _ _ Hp) as [pre [Hhs Hpre]].
      rewrite Hhs. unfold list_index.
      rewrite find_from_app by (intros a Ha'; apply Nat.eqb_neq; apply Hpre in Ha'; lia).
      simpl. rewrite Nat.eqb_refl. simpl.
      unfold rescan_paper3.
      rewrite skipn_app, skipn_all, Nat.sub_diag. simpl.
      rewrite (nth_error_nth _ _ Hr Hp). simpl. rewrite Ht.
      rewrite (find_paper3 page q ids' t' Hq Ht' _ (S p) eq_refl) by (auto; lia).
      by rewrite (Hnd q).
    + by rewrite (Hnd p).
  - intros h tx ct Hin.
    destruct (collect_block_source page h tx ct _ (S p) eq_refl Hin)
      as (j & ids0 & ti & lk & Hj & Hd & Hl & Hm).
    exists j, ids0, ti, lk. repeat split; [lia| |exact Hd|exact Hl].
    apply (Hm q 4 ids' t'); [lia|exact Hq].
  - intros h tx ct Hin.
    destruct (collect_block_source page h tx ct _ (S q) eq_refl Hin)
      as (j & ids0 & ti & lk & Hj & Hd & Hl & _).
    exists j, ids0, ti, lk. repeat split; [lia|exact Hd|exact Hl].
Qed.

Lemma shared_anchor_sections_witness :
  section_links sample_page paper1_section = SecLinks (collect_block (skipn 1 sample_page)) /\
  section_links sample_page paper3_section = SecLinks (collect_block (skipn 6 sample_page)).
Proof.
  assert (H : forall sec, sec_identifier sec = "paper1" ->
            section_links sample_page sec
            = SecLinks (collect_block (skipn (S (if is_paper3_section sec then 5 else 0)) sample_page))).
  { refine (proj1 (proj2 (shared_anchor_sections sample_page _ 0 5 ["paper1"] "Paper 1 - Pure Mathematics"
              [] "Paper 3 - Statistics & Mechanics" _ _ eq_refl eq_refl eq_refl eq_refl _ eq_refl eq_refl
              _ eq_refl eq_refl eq_refl eq_refl))).
    - lia.
    - intros j Hj. destruct j as [|[|[|[|[|j]]]]]; try lia; reflexivity. }
  split; [exact (H paper1_section eq_refl)|exact (H paper3_section eq_refl)].
Defined.

(** * The year of a link *)

Lemma prefixb_app_inv (a t : string) : prefixb a t = true -> exists r, t = a ++ r.
Proof.
  revert t. induction a as [|c a IH]; intros t H; [by exists t|].
  destruct t as [|c' t]; simpl in H; [discriminate|].
  apply andb_true_iff in H as [Hc H]. apply Ascii.eqb_eq in Hc as <-.
  destruct (IH t H) as [r ->]. by exists r.
Qed.

Lemma prefixb_app (a r : string) : prefixb a (a ++ r) = true.
Proof. induction a as [|c a IH]; simpl; [reflexivity|]. by rewrite Ascii.eqb_refl. Qed.

Lemma year_here_some t yy :
  year_here t = Some yy ->
  exists d1 d2 r, t = String "2" (String "0" (String d1 (String d2 r))) /\
    is_digit d1 = true /\ is_digit d2 = true /\ yy = String d1 (String d2 EmptyString).
Proof.
  destruct t as [|a t]; [discriminate|].
  destruct a as [[] [] [] [] [] [] [] []]; try discriminate.
  destruct t as [|b t]; [discriminate|].
  destruct b as [[] [] [] [] [] [] [] []]; try discriminate.
  destruct t as [|d1 [|d2 r]]; try discriminate.
  simpl. destruct (is_digit d1) eqn:E1, (is_digit d2) eqn:E2; simpl; try discriminate.
  intros [= <-]. by exists d1, d2, r.
Qed.

Lemma search_year_cons c t :
  search_year (String c t)
  = match year_here (String c t) with Some yy => Some yy | None => search_year t end.
Proof. reflexivity. Qed.

Lemma contains_cons n c t : contains n (String c t) = prefixb n (String c t) || contains n t.
Proof. reflexivity. Qed.

Lemma search_year_some t yy :
  search_year t = Some yy ->
  exists d1 d2, yy = String d1 (String d2 EmptyString) /\ is_digit d1 = true /\ is_digit d2 = true /\
    contains (String "2" (String "0" yy)) t = true.
Proof.
  induction t as [|c t IH]; intros H.
  - discriminate.
  - rewrite search_year_cons in H. rewrite contains_cons.
    destruct (year_here (String c t)) as [y|] eqn:Hy.
    + injection H as <-. destruct (year_here_some _ _ Hy) as (d1 & d2 & r & Ht & H1 & H2 & ->).
      exists d1, d2. repeat split; [exact H1|exact H2|].
      rewrite Ht. apply orb_true_intro. left. simpl. by rewrite !Ascii.eqb_refl.
    + destruct (IH H) as (d1 & d2 & E & H1 & H2 & Hc). exists d1, d2.
      repeat split; [exact E|exact H1|exact H2|]. rewrite Hc. apply orb_true_r.
Qed.

Lemma search_year_none t :
  search_year t = None <->
  forall d1 d2, is_digit d1 = true -> is_digit d2 = true ->
    contains (String "2" (String "0" (String d1 (String d2 EmptyString)))) t = false.
Proof.
  split.
  - induction t as [|c t IH]; intros H d1 d2 H1 H2; [reflexivity|].
    rewrite search_year_cons in H. destruct (year_here (String c t)) eqn:Hy; [discriminate|].
    rewrite contains_cons, (IH H d1 d2 H1 H2), orb_false_r.
    destruct (prefixb _ (String c t)) eqn:Hp; [|reflexivity].
    apply prefixb_app_inv in Hp as [r Hr]. rewrite Hr in Hy. simpl in Hy.
    rewrite H1, H2 in Hy. discriminate.
  - intros H. destruct (search_year t) as [yy|] eqn:E; [|reflexivity].
    destruct (search_year_some _ _ E) as (d1 & d2 & -> & H1 & H2 & Hc).
    rewrite (H d1 d2 H1 H2) in Hc. discriminate.
Qed.

Lemma run_links_cons x bu bp key sec r v K l ls s :
  run_links x bu bp key sec r v K (l :: ls) s
  = match process_link x bu bp key sec r v K l s with
    | Ok s' => run_links x bu bp key sec r v K ls s'
    | Exc s' => Exc s'
    end.
Proof. reflexivity. Qed.

(** C5: the orchestrator's year is "20" followed by the two digits of the
    first "20dd" in the anchor text, and there is none exactly when no
    such fragment occurs; a link without a year is logged and skipped,
    with no transfer, no file and no ledger row, and the section's loop
    goes on with the next link from the unchanged state. *)
Theorem missing_year_skipped :
  (forall text y, extract_year text = Some y ->
     exists d1 d2, is_digit d1 = true /\ is_digit d2 = true /\
       y = String "2" (String "0" (String d1 (String d2 EmptyString))) /\ contains y text = true) /\
  (forall text, extract_year text = None <->
     forall d1 d2, is_digit d1 = true -> is_digit d2 = true ->
       contains (String "2" (String "0" (String d1 (String d2 EmptyString)))) text = false) /\
  (forall x bu bp key sec r v K href text ct ls s,
     split_ok key -> extract_year text = None ->
     let s' := log (EvMissingYear text) s in
     process_link x bu bp key sec r v K (href, text, ct) s = Ok s' /\
     st_transfers s' = st_transfers s /\ st_ledger s' = st_ledger s /\ st_files s' = st_files s /\
     run_links x bu bp key sec r v K ((href, text, ct) :: ls) s = run_links x bu bp key sec r v K ls s').
Proof.
  split; [|split].
  - intros text y. unfold extract_year. destruct (search_year text) as [yy|] eqn:E; [|discriminate].
    intros [= <-]. destruct (search_year_some _ _ E) as (d1 & d2 & -> & H1 & H2 & Hc).
    exists d1, d2. repeat split; assumption.
  - intros text. rewrite <- search_year_none. unfold extract_year.
    destruct (search_year text); split; congruence.
  - intros x bu bp key sec r v K href text ct ls s (b & l & Hb & Hl) Hy s'.
    assert (Hp : process_link x bu bp key sec r v K (href, text, ct) s = Ok s').
    { unfold process_link. by rewrite Hb, Hl, Hy. }
    repeat split; try reflexivity; [exact Hp|]. by rewrite run_links_cons, Hp.
Qed.

Lemma missing_year_skipped_witness :
  split_ok "edexcel_alevel" /\ extract_year "June QP" = None /\
  process_link sample_ext "" "/b" "edexcel_alevel" paper1_section true true []
    ("https://x/P1.pdf", "June QP", "QP") empty_state
  = Ok (log (EvMissingYear "June QP") empty_state) /\
  contains "2019" "June 2019 QP" = true.
Proof.
  assert (Hk : split_ok "edexcel_alevel") by (exists "edexcel", "alevel"; split; reflexivity).
  split; [exact Hk|]. split; [reflexivity|]. split.
  - exact (proj1 (proj2 (proj2 missing_year_skipped) sample_ext "" "/b" "edexcel_alevel"
             paper1_section true true [] "https://x/P1.pdf" "June QP" "QP" [] empty_state Hk eq_refl)).
  - destruct (proj1 missing_year_skipped "June 2019 QP" "2019" eq_refl) as (d1 & d2 & _ & _ & _ & Hc).
    exact Hc.
Defined.

(** * Ledger rows *)

Lemma ledger_list_app_neq (L : list entry) e : L <> (L ++ [e])%list.
Proof. intros H. apply (f_equal (@length _)) in H. rewrite length_app in H. simpl in H. lia. Qed.

(** What a link that adds a row to the ledger went through: the key splits
    into board and level, the transfer returned bytes [b], which passed
    validation when it is on; the row names the link's filename under the
    folder [folder_and_subtype] gives, whose file holds [b], and its hash
    is the digest of [b]. *)
Lemma process_link_append x bu bp key sec r v K href text ct s s' e :
  process_link x bu bp key sec r v K (href, text, ct) s = Ok s' ->
  ledger_list s' = (ledger_list s ++ [e])%list ->
  exists b board level,
    index (split "_" key) 0 = Some board /\ index (split "_" key) 1 = Some level /\
    x_transfer x (full_url x bu href) = Transferred b /\
    (v = true -> x_valid x b = true) /\
    e.(e_filename) = link_filename (full_url x bu href) text /\
    e.(e_file_path)
      = join [join (fst (folder_and_subtype bp board level sec.(sec_name) ct text
                           (find_subtype text sec.(sec_subtypes)))); e.(e_filename)] /\
    e.(e_subtype) = snd (folder_and_subtype bp board level sec.(sec_name) ct text
                           (find_subtype text sec.(sec_subtypes))) /\
    e.(e_content_type) = ct /\ e.(e_paper_type) = sec.(sec_name) /\
    e.(e_exam_board) = board /\ e.(e_level) = level /\
    e.(e_year) = extract_year text /\ e.(e_validated) = v /\
    st_files s' !! e.(e_file_path) = Some b /\
    e.(e_file_hash) = x.(x_md5) b.
Proof.
  unfold process_link. intros H HL.
  assert (Hsame : ledger_list s' = ledger_list s -> False).
  { intros E. rewrite E in HL. exact (ledger_list_app_neq _ _ HL). }
  destruct (index (split "_" key) 0) as [board|] eqn:Hb; [|discriminate].
  destruct (index (split "_" key) 1) as [level|] eqn:Hl; [|discriminate].
  destruct (extract_year text) as [y|] eqn:Hy.
  2:{ injection H as <-. exfalso. by apply Hsame. }
  destruct (r && mem _ K).
  { injection H as <-. exfalso. by apply Hsame. }
  destruct (folder_and_subtype _ _ _ _ _ _ _) as [folder sub'] eqn:Hf.
  unfold download_file in H. destruct (x_transfer x _) as [b|[b|]] eqn:Ht; simpl in H.
  - unfold validate_pdf, calculate_file_hash in H. simpl in H.
    rewrite lookup_insert_eq in H.
    destruct v; destruct (x_valid x b) eqn:Hv; simpl in H; injection H as <-;
      try (exfalso; by apply Hsame).
    all: unfold ledger_list in HL |- *; simpl in HL.
    all: destruct (st_ledger s) as [L|]; simpl in HL;
      [apply app_inv_head in HL | ]; injection HL as <-.
    all: exists b, board, level; simpl; rewrite Hf; simpl.
    all: repeat split; try reflexivity; try (by rewrite Hy); try (intros; assumption);
      try (intros [=]); try (by rewrite lookup_insert_eq).
  - injection H as <-. exfalso. by apply Hsame.
  - injection H as <-. exfalso. by apply Hsame.
Qed.

(** C8: a link adds a ledger row only when its transfer succeeded and,
    with validation on, the transferred bytes passed it (the file at the
    row's path holds them); when validation is on and the transferred file
    fails it, that file is deleted, nothing else on disk changes, the
    ledger is unchanged and the failure is logged. *)
Theorem ledger_row_only_after_valid_transfer :
  (forall x bu bp key sec r v K href text ct s s' e,
     process_link x bu bp key sec r v K (href, text, ct) s = Ok s' ->
     ledger_list s' = (ledger_list s ++ [e])%list ->
     exists b, x_transfer x (full_url x bu href) = Transferred b /\
       (v = true -> x_valid x b = true) /\ st_files s' !! e.(e_file_path) = Some b) /\
  (forall x bu bp key sec r K href text ct s b,
     split_ok key -> extract_year text <> None ->
     (r && mem (link_filename (full_url x bu href) text) K) = false ->
     x_transfer x (full_url x bu href) = Transferred b -> x_valid x b = false ->
     exists p s', process_link x bu bp key sec r true K (href, text, ct) s = Ok s' /\
       st_ledger s' = st_ledger s /\
       st_transfers s' = (st_transfers s ++ [full_url x bu href])%list /\
       st_files s' !! p = None /\
       (forall p', p' <> p -> st_files s' !! p' = st_files s !! p') /\
       st_log s' = (st_log s ++ [EvInvalidPdf p])%list).
Proof.
  split.
  - intros x bu bp key sec r v K href text ct s s' e Hp HL.
    destruct (process_link_append _ _ _ _ _ _ _ _ _ _ _ _ _ _ Hp HL)
      as (b & _ & _ & _ & _ & Ht & Hv & _ & _ & _ & _ & _ & _ & _ & _ & _ & Hf & _).
    exists b. auto.
  - intros x bu bp key sec r K href text ct s b (board & level & Hb & Hl) Hy Hm Ht Hv.
    unfold process_link. rewrite Hb, Hl.
    destruct (extract_year text) as [y|]; [|congruence]. simpl.
    destruct (r && mem _ K) eqn:E; [congruence|].
    destruct (folder_and_subtype _ _ _ _ _ _ _) as [folder sub'].
    unfold download_file. rewrite Ht. simpl.
    unfold validate_pdf. simpl. rewrite lookup_insert_eq, Hv. simpl.
    eexists _, _. split; [reflexivity|]. simpl.
    repeat split.
    + by rewrite lookup_delete_eq.
    + intros p' Hne. by rewrite lookup_delete_ne, lookup_insert_ne by congruence.
Qed.

Lemma ledger_row_only_after_valid_transfer_witness :
  (exists s' e,
     process_link sample_ext "" "/b" "edexcel_alevel" paper1_section true true []
       ("https://x/P1-June-2019-QP.pdf", "June 2019 QP", "QP") empty_state = Ok s' /\
     ledger_list s' = (ledger_list empty_state ++ [e])%list /\
     st_files s' !! e.(e_file_path) = Some pdf_bytes) /\
  (exists p s', process_link invalid_ext "" "/b" "edexcel_alevel" paper1_section true true []
       ("https://x/P1-June-2019-QP.pdf", "June 2019 QP", "QP") empty_state = Ok s' /\
     st_ledger s' = None /\ st_files s' !! p = None).
Proof.
  split.
  - eexists _, _. split; [reflexivity|]. split; [reflexivity|].
    destruct (proj1 ledger_row_only_after_valid_transfer sample_ext "" "/b" "edexcel_alevel"
                paper1_section true true [] "https://x/P1-June-2019-QP.pdf" "June 2019 QP" "QP"
                empty_state _ _ eq_refl eq_refl) as (b & Ht & _ & Hf).
    injection Ht as <-. exact Hf.
  - destruct (proj2 ledger_row_only_after_valid_transfer invalid_ext "" "/b" "edexcel_alevel"
                paper1_section true [] "https://x/P1-June-2019-QP.pdf" "June 2019 QP" "QP"
                empty_state pdf_bytes) as (p & s' & Hp & HL & _ & Hf & _ & _).
    + exists "edexcel", "alevel". split; reflexivity.
    + discriminate.
    + reflexivity.
    + reflexivity.
    + reflexivity.
    + exists p, s'. auto.
Defined.

(** C9: the row a link adds names a file that exists right after the row
    is written, and the row's hash is the digest of that file's bytes. *)
Theorem ledger_row_hash_matches_file x bu bp key sec r v K href text ct s s' e :
  process_link x bu bp key sec r v K (href, text, ct) s = Ok s' ->
  ledger_list s' = (ledger_list s ++ [e])%list ->
  exists b, st_files s' !! e.(e_file_path) = Some b /\ e.(e_file_hash) = x.(x_md5) b.
Proof.
  intros Hp HL.
  destruct (process_link_append _ _ _ _ _ _ _ _ _ _ _ _ _ _ Hp HL)
    as (b & _ & _ & _ & _ & _ & _ & _ & _ & _ & _ & _ & _ & _ & _ & _ & Hf & Hh).
  by exists b.
Qed.

Lemma ledger_row_hash_matches_file_witness :
  exists s' e,
    process_link sample_ext "" "/b" "edexcel_alevel" paper1_section true true []
      ("https://x/P1-June-2019-QP.pdf", "June 2019 QP", "QP") empty_state = Ok s' /\
    ledger_list s' = (ledger_list empty_state ++ [e])%list /\
    st_files s' !! e.(e_file_path) = Some pdf_bytes /\ e.(e_file_hash) = "5d41".
Proof.
  eexists _, _. split; [reflexivity|]. split; [reflexivity|].
  destruct (ledger_row_hash_matches_file sample_ext "" "/b" "edexcel_alevel" paper1_section true true []
              "https://x/P1-June-2019-QP.pdf" "June 2019 QP" "QP" empty_state _ _ eq_refl eq_refl)
    as (b & Hf & Hh).
  rewrite Hh. simpl in Hf. rewrite lookup_insert_eq in Hf. injection Hf as <-.
  split; [|reflexivity]. simpl. by rewrite lookup_insert_eq.
Defined.

End PmtFacts.

(** * Destination folders of the two pipelines *)

Module LayoutFacts.
Import Str.




End LayoutFacts.

(* ------------------------------------------------------------------ *)
(** ** Further properties of the string helpers *)

Module StrExtra.
Import Str StrFacts.

Lemma str_app_assoc (a b c : string) : ((a ++ b) ++ c)%string = (a ++ (b ++ c))%string.
Proof. induction a as [|ch a IH]; [reflexivity|]. by rewrite !str_app_cons, IH. Qed.

Lemma str_app_nil_r (a : string) : (a ++ "")%string = a.
Proof. induction a as [|ch a IH]; [reflexivity|]. by rewrite str_app_cons, IH. Qed.

Lemma rev_str_acc (s acc : string) : rev_str s acc = (rev_str s "" ++ acc)%string.
Proof.
  revert acc. induction s as [|c s IH]; intros acc; simpl; [reflexivity|].
  rewrite (IH (String c acc)), (IH (String c "")), str_app_assoc. reflexivity.
Qed.

Lemma rev_str_app (a b acc : string) : rev_str (a ++ b) acc = rev_str b (rev_str a acc).
Proof.
  revert acc. induction a as [|c a IH]; intros acc; [reflexivity|].
  rewrite str_app_cons. simpl. apply IH.
Qed.

Lemma endswith_app (suf a : string) : endswith suf (a ++ suf) = true.
Proof.
  unfold endswith. rewrite rev_str_app, (rev_str_acc suf (rev_str a "")).
  apply PmtFacts.prefixb_app.
Qed.

(** Whether a character occurs in a string. *)
Fixpoint has_char (c : ascii) (s : string) : bool :=
  match s with
  | EmptyString => false
  | String d s' => Ascii.eqb c d || has_char c s'
  end.

Lemma contains_char c s : contains (String c "") s = has_char c s.
Proof.
  induction s as [|d s IH]; [reflexivity|].
  rewrite PmtFacts.contains_cons, IH. simpl. by rewrite andb_true_r.
Qed.

Lemma has_char_rev c s acc : has_char c (rev_str s acc) = has_char c s || has_char c acc.
Proof.
  revert acc. induction s as [|d s IH]; intros acc; simpl; [reflexivity|].
  rewrite IH. simpl. destruct (Ascii.eqb c d), (has_char c s), (has_char c acc); reflexivity.
Qed.

Lemma has_char_app c a b : has_char c (a ++ b) = has_char c a || has_char c b.
Proof. induction a as [|d a IH]; [reflexivity|]. rewrite str_app_cons. simpl. by rewrite IH, orb_assoc. Qed.

Lemma has_char_map c f s :
  (forall d, f d <> c) -> has_char c (map_chars f s) = false.
Proof.
  intros Hf. induction s as [|d s IH]; simpl; [reflexivity|].
  rewrite IH, orb_false_r. apply Ascii.eqb_neq. intros E. by apply (Hf d).
Qed.

Lemma basename_aux_no_slash s cur :
  has_char "/" cur = false -> has_char "/" (basename_aux s cur) = false.
Proof.
  revert cur. induction s as [|d s IH]; intros cur Hc; simpl.
  - by rewrite has_char_rev, Hc.
  - destruct (Ascii.eqb d "/") eqn:E; apply IH; [reflexivity|].
    change (has_char "/" (String d cur)) with (Ascii.eqb "/" d || has_char "/" cur).
    rewrite Hc, orb_false_r. apply Ascii.eqb_neq. intros <-.
    rewrite Ascii.eqb_refl in E. discriminate.
Qed.

End StrExtra.


(* ------------------------------------------------------------------ *)
(** ** Further properties of the orchestrator *)

Module PmtExtra.
Import Str Pmt PmtSamples PmtFacts StrFacts StrExtra.

(** A file name chosen for a link always ends in ".pdf" and contains no
    slash: either the URL's basename (which has none) or the sanitized
    link text, where every slash became an underscore.  So the save path
    [os.path.join(save_folder, filename)] always stays inside the folder. *)
Theorem link_filename_pdf_no_slash (full_url link_text : string) :
  endswith ".pdf" (link_filename full_url link_text) = true /\
  contains "/" (link_filename full_url link_text) = false.
Proof.
  unfold link_filename. destruct (endswith ".pdf" (basename full_url)) eqn:E.
  - split; [exact E|]. rewrite contains_char. by apply basename_aux_no_slash.
  - unfold sanitize. rewrite map_chars_app.
    assert (Hpdf : map_chars (fun c => if unsafe c then "_"%char else c) ".pdf" = ".pdf")
      by reflexivity.
    rewrite Hpdf. split; [apply endswith_app|].
    rewrite contains_char, has_char_app, has_char_map; [reflexivity|].
    intros d. destruct (unsafe d) eqn:U; [discriminate|].
    intros ->. discriminate U.
Qed.

Lemma process_link_fresh x bu bp key sec v l s :
  process_link x bu bp key sec false v [] l s = process_link x bu bp key sec true v [] l s.
Proof. destruct l as [[h t] c]. reflexivity. Qed.

Lemma run_links_fresh x bu bp key sec v links s :
  run_links x bu bp key sec false v [] links s = run_links x bu bp key sec true v [] links s.
Proof.
  revert s. induction links as [|l links IH]; intros s; [reflexivity|].
  rewrite !run_links_cons, process_link_fresh.
  destruct (process_link _ _ _ _ _ true _ _ _ _); [apply IH|reflexivity].
Qed.

Lemma run_sections_fresh x bu bp key v page secs s :
  run_sections x bu bp key false v [] page secs s = run_sections x bu bp key true v [] page secs s.
Proof.
  revert s. induction secs as [|sec secs IH]; intros s; simpl; [reflexivity|].
  destruct (section_links page sec); [apply IH|reflexivity|].
  rewrite run_links_fresh. destruct (run_links _ _ _ _ _ true _ _ _ _); [apply IH|reflexivity].
Qed.

Lemma initialize_overwrite_ledger s : st_ledger (initialize_tracking_csv true s) = Some [].
Proof. unfold initialize_tracking_csv. by destruct (st_ledger s). Qed.

(** A run with resume off ([--no-resume]) discards the previous ledger:
    it leaves exactly the ledger a resumed run leaves when started with no
    tracking CSV at all, whatever rows the CSV held before. *)
Theorem fresh_run_ledger x base_path config_key validate page s :
  lookup_config config_key CONFIGS <> None ->
  st_ledger (res_state (scrape_pmt_papers x base_path config_key false validate page s))
  = st_ledger (res_state (scrape_pmt_papers x base_path config_key true validate page
                            (set_ledger None s))).
Proof.
  intros Hn. destruct (lookup_config config_key CONFIGS) as [cfg|] eqn:Hc; [|congruence].
  rewrite (scrape_ledger _ _ _ _ _ _ cfg Hc). unfold ledger_list. simpl.
  pose proof (lookup_config_key _ _ Hc) as ->.
  unfold scrape_pmt_papers. rewrite Hc, (proj1 split_edexcel), (proj2 split_edexcel).
  simpl (negb false). simpl (if false then _ else _).
  destruct page as [els|].
  - rewrite run_sections_fresh.
    rewrite (run_sections_ledger _ _ _ _ _ _ _ _ _ []); [reflexivity| |].
    + exists "edexcel", "alevel". split; reflexivity.
    + apply initialize_overwrite_ledger.
  - apply initialize_overwrite_ledger.
Qed.

Definition known_entry : entry :=
  mk_entry "old.pdf" "edexcel" "alevel" "Paper 1" None "QP" (Some "2018") None
    "/b/Edexcel/ALEVEL/Paper_1/question_papers/old.pdf" "2025-01-01" "abcd" true.

Lemma fresh_run_ledger_witness :
  lookup_config "edexcel_alevel" CONFIGS <> None /\
  st_ledger (res_state (scrape_pmt_papers sample_ext "/b" "edexcel_alevel" false true
                          (Some sample_page) (set_ledger (Some [known_entry]) empty_state)))
  = st_ledger (res_state (scrape_pmt_papers sample_ext "/b" "edexcel_alevel" true true
                            (Some sample_page)
                            (set_ledger None (set_ledger (Some [known_entry]) empty_state)))).
Proof. split; [discriminate|]. apply fresh_run_ledger. discriminate. Defined.

Lemma h4_positions_from_in l i j :
  In j (h4_positions_from l i) -> exists e, nth_error l (j - i) = Some e /\ is_h4 e = true /\ i <= j.
Proof.
  revert i. induction l as [|e l IH]; intros i; simpl; [intros []|].
  destruct (is_h4 e) eqn:H4.
  - intros [<-|Hin].
    + exists e. rewrite Nat.sub_diag. split; [reflexivity|]. split; [exact H4|lia].
    + destruct (IH _ Hin) as (e' & He' & H4' & Hle). exists e'.
      replace (j - i) with (S (j - S i)) by lia. split; [exact He'|]. split; [exact H4'|lia].
  - intros Hin. destruct (IH _ Hin) as (e' & He' & H4' & Hle). exists e'.
    replace (j - i) with (S (j - S i)) by lia. split; [exact He'|]. split; [exact H4'|lia].
Qed.

Lemma list_index_not_h4 page p e :
  nth_error page p = Some e -> is_h4 e = false -> list_index (h4_positions page) p = None.
Proof.
  intros Hp H4. unfold list_index. apply find_from_none. intros a Ha.
  apply Nat.eqb_neq. intros <-. destruct (h4_positions_from_in _ _ _ Ha) as (e' & He' & H4' & _).
  rewrite Nat.sub_0_r, Hp in He'. injection He' as ->. congruence.
Qed.

Lemma section_links_not_paper3 page sec :
  is_paper3_section sec = false -> section_links page sec <> SecRaise.
Proof.
  intros H. unfold section_links, section_heading. rewrite H.
  repeat case_match; congruence.
Qed.

Lemma run_links_ok x bu bp key sec r v K links s :
  split_ok key -> exists s', run_links x bu bp key sec r v K links s = Ok s'.
Proof.
  intros Hk. revert s. induction links as [|l links IH]; intros s; [by exists s|].
  rewrite run_links_cons. destruct (process_link_ok x bu bp key sec r v K l s Hk) as [s1 ->].
  apply IH.
Qed.

Lemma run_sections_raise x bu bp key r v K page secs1 sec secs2 s :
  split_ok key -> Forall (fun sc => is_paper3_section sc = false) secs1 ->
  section_links page sec = SecRaise ->
  exists s', run_sections x bu bp key r v K page (secs1 ++ sec :: secs2) s = Exc s'.
Proof.
  intros Hk Hs Hr. revert s. induction Hs as [|sc secs1 Hsc Hs IH]; intros s; simpl.
  - rewrite Hr. by exists s.
  - pose proof (section_links_not_paper3 page sc Hsc) as Hn.
    destruct (section_links page sc) as [| |links]; [apply IH|congruence|].
    destruct (run_links_ok x bu bp key sc r v K links s Hk) as [s1 ->]. apply IH.
Qed.

(** When the anchor "paper1", which the Edexcel profile declares for both
    Paper 1 and Paper 3, sits in a heading that is not an h4, the Paper 3
    section raises the [ValueError] of [all_h4s.index(section_heading)],
    which nothing catches: the run ends in an exception after Papers 1 and 2,
    whatever the resume and validation flags. *)
Theorem paper3_anchor_off_h4 x base_path resume validate page s p lvl ids t :
  find_anchor page "paper1" = Some p ->
  nth_error page p = Some (Heading lvl ids t) -> 1 <= lvl <= 6 -> lvl <> 4 ->
  exists s', scrape_pmt_papers x base_path "edexcel_alevel" resume validate (Some page) s = Exc s'.
Proof.
  intros Ha Hp Hlvl H4.
  assert (Hr : section_links page (mk_section "Paper 3" "paper1"
                 (Some "Paper 3 - Statistics & Mechanics") ["QP"; "MS"]
                 (Some ["Mechanics"; "Statistics"])) = SecRaise).
  { unfold section_links, section_heading. simpl sec_identifier. rewrite Ha.
    assert (Hph : parent_heading page p = Some p).
    { unfold parent_heading. rewrite Hp. cbv beta iota delta [is_heading].
      replace (Nat.leb 1 lvl && Nat.leb lvl 6) with true
        by (symmetry; apply andb_true_iff; split; apply Nat.leb_le; lia).
      reflexivity. }
    rewrite Hph. replace (is_paper3_section _) with true by reflexivity. cbv beta iota.
    rewrite (list_index_not_h4 page p (Heading lvl ids t) Hp); [reflexivity|].
    destruct lvl as [|[|[|[|[|]]]]]; simpl; lia || reflexivity. }
  unfold scrape_pmt_papers. simpl lookup_config.
  rewrite (proj1 split_edexcel), (proj2 split_edexcel).
  apply (run_sections_raise _ _ _ _ _ _ _ page
           [mk_section "Paper 1" "paper1" None ["QP"; "MS"] None;
            mk_section "Paper 2" "paper2" None ["QP"; "MS"] None] _ []).
  - exists "edexcel", "alevel". split; reflexivity.
  - repeat constructor.
  - exact Hr.
Qed.

(** A page whose "paper1" anchor sits in an h3. *)
Definition h3_page : list elem := [
  Heading 3 ["paper1"] "Paper 1 - Pure Mathematics";
  Div [] (Some "Question Papers") [("https://x/P1-June-2019-QP.pdf", "June 2019 QP")];
  Heading 4 [] "Paper 3 - Statistics & Mechanics";
  Div [] (Some "Question Papers") [("https://x/P3-June-2019-QP.pdf", "June 2019 QP (Mech)")]].

Lemma paper3_anchor_off_h4_witness :
  find_anchor h3_page "paper1" = Some 0 /\
  exists s', scrape_pmt_papers sample_ext "/b" "edexcel_alevel" true true (Some h3_page)
               empty_state = Exc s'.
Proof.
  split; [reflexivity|].
  apply (paper3_anchor_off_h4 sample_ext "/b" true true h3_page empty_state 0 3 ["paper1"]
           "Paper 1 - Pure Mathematics"); [reflexivity|reflexivity|lia|lia].
Defined.

Definition is_block_end (e : elem) : Prop :=
  match e with Hr | Heading _ _ _ => True | _ => False end.
Definition is_block_body (e : elem) : Prop :=
  match e with Div _ _ _ | Other _ => True | _ => False end.

(** The links of a section's block are those of the divs up to the first
    rule or heading: whatever follows is never collected.  Each collected
    link comes from a div of the block whose h5/h6 title classifies it, as
    "QP" (title containing "Question") or else "MS" (title containing
    "Mark" or "MS"); divs without such a title contribute nothing. *)
Theorem collect_block_stops els1 e els2 :
  Forall is_block_body els1 -> is_block_end e ->
  collect_block (els1 ++ e :: els2) = collect_block els1 /\
  forall h t ct, In (h, t, ct) (collect_block els1) ->
    exists ids ti lk, In (Div ids ti lk) els1 /\ In (h, t) lk /\
      div_content_type ti = Some ct /\ (ct = "QP" \/ ct = "MS").
Proof.
  intros Hb He. split.
  - induction Hb as [|e1 els1 He1 Hb IH]; simpl.
    + destruct e; simpl in He; try contradiction; reflexivity.
    + destruct e1 as [| ids ti lk | |]; simpl in He1; try contradiction; [|exact IH].
      by rewrite IH.
  - clear He. induction els1 as [|e1 els1 IH]; simpl; intros h t ct Hin; [destruct Hin|].
    inversion Hb as [|? ? He1 Hb']; subst.
    destruct e1 as [| ids ti lk | |]; simpl in He1; try contradiction.
    + destruct (div_content_type ti) as [c|] eqn:Hct.
      * apply in_app_or in Hin as [Hin|Hin].
        -- apply in_map_iff in Hin as [[h' t'] [E Hin]]. injection E as -> -> <-.
           exists ids, ti, lk. split; [by left|]. split; [exact Hin|]. split; [exact Hct|].
           unfold div_content_type in Hct. destruct ti; [|discriminate].
           destruct (contains "Question" _); [injection Hct as <-; auto|].
           destruct (_ || _); [injection Hct as <-; auto|discriminate].
        -- destruct (IH Hb' h t ct Hin) as (ids' & ti' & lk' & H1 & H2 & H3 & H4).
           exists ids', ti', lk'. split; [by right|]. auto.
      * destruct (IH Hb' h t ct Hin) as (ids' & ti' & lk' & H1 & H2 & H3 & H4).
        exists ids', ti', lk'. split; [by right|]. auto.
    + destruct (IH Hb' h t ct Hin) as (ids' & ti' & lk' & H1 & H2 & H3 & H4).
      exists ids', ti', lk'. split; [by right|]. auto.
Qed.

Lemma collect_block_stops_witness :
  collect_block ([Div [] (Some "Question Papers") [("q.pdf", "June 2019 QP")]; Other []] ++
                 Hr :: [Div [] (Some "Mark Schemes") [("m.pdf", "June 2019 MS")]])
  = collect_block [Div [] (Some "Question Papers") [("q.pdf", "June 2019 QP")]; Other []] /\
  collect_block [Div [] (Some "Question Papers") [("q.pdf", "June 2019 QP")]; Other []]
  = [("q.pdf", "June 2019 QP", "QP")].
Proof.
  split; [|reflexivity].
  apply (collect_block_stops [Div [] (Some "Question Papers") [("q.pdf", "June 2019 QP")]; Other []]
           Hr [Div [] (Some "Mark Schemes") [("m.pdf", "June 2019 MS")]]);
    [repeat constructor|exact I].
Defined.

Lemma link_entry_one x bu bp sec v K href text ct b :
  extract_year text <> None ->
  mem (link_filename (full_url x bu href) text) K = false ->
  x.(x_transfer) (full_url x bu href) = Transferred b ->
  (v = true -> x.(x_valid) b = true) ->
  exists e, link_entry x bu bp "edexcel_alevel" sec v K (href, text, ct) = [e] /\
            e.(e_filename) = link_filename (full_url x bu href) text.
Proof.
  intros Hy Hm Ht Hv. unfold link_entry.
  rewrite (proj1 split_edexcel), (proj2 split_edexcel).
  destruct (extract_year text) as [y|]; [|congruence].
  rewrite Hm. destruct (folder_and_subtype _ _ _ _ _ _ _) as [folder sub'].
  rewrite Ht. destruct v.
  - rewrite (Hv eq_refl). simpl. eexists. split; reflexivity.
  - simpl. eexists. split; reflexivity.
Qed.

(** The filenames known to a resumed run are read once, before the loop:
    two links of a section that resolve to the same new filename are both
    transferred and both recorded, leaving two ledger rows with that
    filename (the second file overwrites the first when the folders
    agree). *)
Theorem same_filename_recorded_twice x bu bp sec validate K h1 t1 c1 h2 t2 c2 b1 b2 s L :
  extract_year t1 <> None -> extract_year t2 <> None ->
  link_filename (full_url x bu h2) t2 = link_filename (full_url x bu h1) t1 ->
  mem (link_filename (full_url x bu h1) t1) K = false ->
  x.(x_transfer) (full_url x bu h1) = Transferred b1 ->
  x.(x_transfer) (full_url x bu h2) = Transferred b2 ->
  (validate = true -> x.(x_valid) b1 = true /\ x.(x_valid) b2 = true) ->
  st_ledger s = Some L ->
  exists s' e1 e2,
    run_links x bu bp "edexcel_alevel" sec true validate K [(h1, t1, c1); (h2, t2, c2)] s = Ok s' /\
    st_ledger s' = Some (L ++ [e1; e2])%list /\
    e1.(e_filename) = link_filename (full_url x bu h1) t1 /\ e2.(e_filename) = e1.(e_filename).
Proof.
  intros Hy1 Hy2 Hf Hm Ht1 Ht2 Hv HL.
  destruct (link_entry_one x bu bp sec validate K h1 t1 c1 b1 Hy1 Hm Ht1
              (fun H => proj1 (Hv H))) as (e1 & E1 & F1).
  destruct (link_entry_one x bu bp sec validate K h2 t2 c2 b2 Hy2 (eq_trans (f_equal (fun f => mem f K) Hf) Hm) Ht2
              (fun H => proj2 (Hv H))) as (e2 & E2 & F2).
  destruct (run_links_ledger x bu bp "edexcel_alevel" sec validate K [(h1, t1, c1); (h2, t2, c2)] s L)
    as (s' & Hrun & Hled); [exists "edexcel", "alevel"; split; reflexivity|exact HL|].
  exists s', e1, e2. split; [exact Hrun|]. split.
  - assert (Hfm : forall (f : string * string * string -> list entry) a b,
               flat_map f [a; b] = (f a ++ f b)%list) by (intros; simpl; by rewrite app_nil_r).
    rewrite Hled, Hfm, E1, E2. reflexivity.
  - split; [exact F1|]. congruence.
Qed.

Lemma same_filename_recorded_twice_witness :
  link_filename (full_url sample_ext "https://x/" "https://x/a") "June 2019 QP" = "June 2019 QP.pdf" /\
  exists s' e1 e2,
    run_links sample_ext "https://x/" "/b" "edexcel_alevel" paper1_section true true []
      [("https://x/a", "June 2019 QP", "QP"); ("https://x/b", "June 2019 QP", "QP")]
      (set_ledger (Some []) empty_state) = Ok s' /\
    st_ledger s' = Some ([] ++ [e1; e2])%list /\
    e1.(e_filename) = link_filename (full_url sample_ext "https://x/" "https://x/a") "June 2019 QP" /\
    e2.(e_filename) = e1.(e_filename).
Proof.
  split; [vm_compute; reflexivity|].
  apply (same_filename_recorded_twice sample_ext "https://x/" "/b" paper1_section true []
           "https://x/a" "June 2019 QP" "QP" "https://x/b" "June 2019 QP" "QP" pdf_bytes pdf_bytes
           (set_ledger (Some []) empty_state) []);
    [vm_compute; discriminate|vm_compute; discriminate|vm_compute; reflexivity|vm_compute; reflexivity
    |reflexivity|reflexivity|intros _; split; reflexivity|reflexivity].
Defined.

End PmtExtra.

(* ------------------------------------------------------------------ *)
(** ** The folders [create_folder_structure] prepares and those files go to *)

Module LayoutExtra.
Import Str Pmt PmtFacts StrFacts StrExtra.

(** A path component [os.path.join] appends after a separator: non-empty,
    neither starting nor ending with a slash. *)
Definition goodb (p : string) : bool :=
  negb (String.eqb p "") && negb (prefixb "/" p) && negb (endswith "/" p).

Fixpoint slash_join (ps : list string) : string :=
  match ps with
  | [] => ""
  | p :: ps' => "/" ++ p ++ slash_join ps'
  end.

Definition sep (a : string) : string := if String.eqb a "" || endswith "/" a then "" else "/".

Lemma prefixb_slash_rev b acc :
  b <> "" -> prefixb "/" (rev_str b acc) = prefixb "/" (rev_str b "").
Proof.
  revert acc. induction b as [|d b IH]; intros acc Hb; [congruence|].
  change (rev_str (String d b) acc) with (rev_str b (String d acc)).
  change (rev_str (String d b) "") with (rev_str b (String d "")).
  destruct b as [|d' b'].
  - reflexivity.
  - rewrite (IH (String d acc)), (IH (String d "")); [reflexivity|discriminate|discriminate].
Qed.

Lemma endswith_slash_app a b : b <> "" -> endswith "/" (a ++ b) = endswith "/" b.
Proof. intros Hb. unfold endswith. rewrite rev_str_app. by apply prefixb_slash_rev. Qed.

Lemma fold_join2 acc ps :
  acc <> "" -> endswith "/" acc = false -> forallb goodb ps = true ->
  fold_left join2 ps acc = (acc ++ slash_join ps)%string.
Proof.
  revert acc. induction ps as [|p ps IH]; intros acc Ha He Hg; simpl.
  - by rewrite str_app_nil_r.
  - apply andb_true_iff in Hg as [Hp Hg]. unfold goodb in Hp.
    apply andb_true_iff in Hp as [Hp He']. apply andb_true_iff in Hp as [Hp Hpre].
    apply negb_true_iff in Hp, Hpre, He'. apply String.eqb_neq in Hp.
    assert (Hj : join2 acc p = (acc ++ "/" ++ p)%string).
    { unfold join2. rewrite Hpre. apply String.eqb_neq in Ha. by rewrite Ha, He. }
    rewrite Hj, IH.
    + by rewrite !str_app_assoc.
    + destruct acc; [congruence|discriminate].
    + rewrite endswith_slash_app; [|discriminate]. by rewrite endswith_slash_app.
    + exact Hg.
Qed.

Lemma join_parts bp p ps :
  forallb goodb (p :: ps) = true ->
  join (bp :: p :: ps) = (bp ++ sep bp ++ p ++ slash_join ps)%string.
Proof.
  intros Hg. simpl in Hg. apply andb_true_iff in Hg as [Hp Hg].
  pose proof Hp as Hp'. unfold goodb in Hp.
  apply andb_true_iff in Hp as [Hp He']. apply andb_true_iff in Hp as [Hp Hpre].
  apply negb_true_iff in Hp, Hpre, He'. apply String.eqb_neq in Hp.
  unfold join. simpl fold_left.
  assert (Hj : join2 bp p = (bp ++ sep bp ++ p)%string).
  { unfold join2, sep. rewrite Hpre. destruct (String.eqb bp "" || endswith "/" bp); reflexivity. }
  rewrite Hj, fold_join2.
  - by rewrite !str_app_assoc.
  - destruct p as [|c p']; [congruence|]. destruct bp as [|c0 bp']; intros H; discriminate H.
  - rewrite endswith_slash_app; [|destruct p as [|c p']; [congruence|];
                                  destruct (sep bp); intros H; discriminate H].
    rewrite endswith_slash_app; [exact He'|exact Hp].
  - exact Hg.
Qed.

Lemma str_app_cancel (a x y : string) : (a ++ x)%string = (a ++ y)%string -> x = y.
Proof.
  induction a as [|c a IH]; [done|]. rewrite !str_app_cons. intros [= H]. by apply IH.
Qed.

Lemma join_eq_parts bp p ps q qs :
  forallb goodb (p :: ps) = true -> forallb goodb (q :: qs) = true ->
  join (bp :: p :: ps) = join (bp :: q :: qs) ->
  (p ++ slash_join ps)%string = (q ++ slash_join qs)%string.
Proof.
  intros Hp Hq. rewrite (join_parts _ _ _ Hp), (join_parts _ _ _ Hq).
  intros H. apply str_app_cancel in H. by apply str_app_cancel in H.
Qed.

Lemma paper3_folder bp ct text :
  (exists v, (v = "Mechanics" \/ v = "Statistics") /\
     fst (folder_and_subtype bp "edexcel" "alevel" "Paper 3" ct text
            (find_subtype text (Some ["Mechanics"; "Statistics"])))
     = [bp; "Edexcel"; "ALEVEL"; "Paper_3"; v; content_folder ct]) \/
  fst (folder_and_subtype bp "edexcel" "alevel" "Paper 3" ct text
         (find_subtype text (Some ["Mechanics"; "Statistics"])))
  = [bp; "Edexcel"; "ALEVEL"; "Paper_3"; content_folder ct].
Proof.
  unfold folder_and_subtype, find_subtype. simpl find.
  destruct (contains (lower "Mechanics") (lower text) || _) eqn:E1;
  [|destruct (contains (lower "Statistics") (lower text) || _) eqn:E2].
  all: unfold paper3_subtype.
  all: try (right; reflexivity).
  all: left; destruct (contains "(Mech)" text || contains "(Mechanics)" text);
       [eexists; split; [left; reflexivity|reflexivity]|].
  all: destruct (contains "(Stats)" text || contains "(Statistics)" text);
       (eexists; split; [|reflexivity]); auto.
Qed.

(** The folders [create_folder_structure] prepares for the Edexcel
    profile, where Paper 3 is named by its display name. *)
Lemma edexcel_precreated bp cfg :
  lookup_config "edexcel_alevel" CONFIGS = Some cfg ->
  flat_map (section_folders bp "Edexcel" "ALEVEL") cfg.(cfg_sections) =
  [join [bp; "Edexcel"; "ALEVEL"; "Paper_1"; "question_papers"];
   join [bp; "Edexcel"; "ALEVEL"; "Paper_1"; "mark_schemes"];
   join [bp; "Edexcel"; "ALEVEL"; "Paper_2"; "question_papers"];
   join [bp; "Edexcel"; "ALEVEL"; "Paper_2"; "mark_schemes"];
   join [bp; "Edexcel"; "ALEVEL"; "Paper_3_-_Statistics_&_Mechanics"; "Mechanics"; "question_papers"];
   join [bp; "Edexcel"; "ALEVEL"; "Paper_3_-_Statistics_&_Mechanics"; "Mechanics"; "mark_schemes"];
   join [bp; "Edexcel"; "ALEVEL"; "Paper_3_-_Statistics_&_Mechanics"; "Statistics"; "question_papers"];
   join [bp; "Edexcel"; "ALEVEL"; "Paper_3_-_Statistics_&_Mechanics"; "Statistics"; "mark_schemes"]].
Proof. intros Hc. vm_compute in Hc. injection Hc as <-. reflexivity. Qed.

Ltac join_differs H :=
  apply join_eq_parts in H; try reflexivity; vm_compute in H; discriminate H.

(** [create_folder_structure] names the Paper 3 folders of the Edexcel
    profile after its display name ("Paper_3_-_Statistics_&_Mechanics/..."),
    while the download loop saves Paper 3 files under the section name
    ("Paper_3/..."): the folder a Paper 1 or Paper 2 link is saved to is
    always one of the pre-created folders, and the folder of a Paper 3 link
    never is (it is created on the fly by [os.makedirs]). *)
Theorem paper3_precreated_folders_unused base_path sec ct link_text cfg :
  lookup_config "edexcel_alevel" CONFIGS = Some cfg -> In sec cfg.(cfg_sections) ->
  (In (join (fst (folder_and_subtype base_path "edexcel" "alevel" sec.(sec_name) ct link_text
                    (find_subtype link_text sec.(sec_subtypes)))))
      (flat_map (section_folders base_path "Edexcel" "ALEVEL") cfg.(cfg_sections))
   <-> sec.(sec_name) <> "Paper 3").
Proof.
  intros Hc Hin. rewrite (edexcel_precreated base_path cfg Hc).
  vm_compute in Hc. injection Hc as <-. simpl in Hin.
  destruct Hin as [<-|[<-|[<-|[]]]].
  - split; [intros _; discriminate|intros _].
    match goal with |- context [join (fst ?X)] =>
      replace (fst X) with [base_path; "Edexcel"; "ALEVEL"; "Paper_1"; content_folder ct]
        by reflexivity end.
    unfold content_folder. destruct (String.eqb ct "QP"); [left|right; left]; reflexivity.
  - split; [intros _; discriminate|intros _].
    match goal with |- context [join (fst ?X)] =>
      replace (fst X) with [base_path; "Edexcel"; "ALEVEL"; "Paper_2"; content_folder ct]
        by reflexivity end.
    unfold content_folder. destruct (String.eqb ct "QP"); [do 2 right; left|do 3 right; left];
      reflexivity.
  - split; [|intros H; exfalso; apply H; reflexivity]. intros Hin.
    destruct (paper3_folder base_path ct link_text) as [(v & Hv & F)|F];
    (match type of Hin with context [join (fst ?X)] =>
       change (fst X) with
         (fst (folder_and_subtype base_path "edexcel" "alevel" "Paper 3" ct link_text
                 (find_subtype link_text (Some ["Mechanics"; "Statistics"])))) in Hin end);
    rewrite F in Hin; unfold content_folder in Hin;
    [destruct Hv as [->| ->]|]; destruct (String.eqb ct "QP"); cbn [In] in Hin;
    repeat (destruct Hin as [Hin|Hin]; [join_differs Hin|]); destruct Hin.
Qed.

Lemma paper3_precreated_folders_unused_witness :
  exists cfg, lookup_config "edexcel_alevel" CONFIGS = Some cfg /\
  ~ In (join (fst (folder_and_subtype "/b" "edexcel" "alevel" "Paper 3" "QP" "June 2019 QP (Mech)"
                    (find_subtype "June 2019 QP (Mech)" (Some ["Mechanics"; "Statistics"])))))
       (flat_map (section_folders "/b" "Edexcel" "ALEVEL") cfg.(cfg_sections)).
Proof.
  eexists. split; [reflexivity|]. intros Hin.
  refine (proj1 (paper3_precreated_folders_unused "/b"
            (mk_section "Paper 3" "paper1" (Some "Paper 3 - Statistics & Mechanics")
               ["QP"; "MS"] (Some ["Mechanics"; "Statistics"]))
            "QP" "June 2019 QP (Mech)" _ eq_refl _) Hin eq_refl).
  right; right; left; reflexivity.
Defined.

End LayoutExtra.

(* ------------------------------------------------------------------ *)
(** ** The retries of [download_file_with_progress] *)

Module DownloadExtra.
Import PmtDownload.

(** The attempts after which the loop goes on: a [RequestException]. *)
Definition retryable (a : attempt_result) : bool :=
  match a with AttemptRefused | AttemptBroken _ => true | _ => false end.

(** The file left by a run of failed attempts: the last partial write. *)
Definition last_partial (get : nat -> attempt_result) (js : list nat) (file : option bytes)
    : option bytes :=
  fold_left (fun f j => match get j with AttemptBroken b => Some b | _ => f end) js file.

Lemma dl_loop_fail get retries i n file gets sleeps :
  i + n = retries -> (forall j, i <= j < retries -> retryable (get j) = true) ->
  dl_loop get retries (seq i n) file gets sleeps
  = mk_dl (Some false) (last_partial get (seq i n) file) (gets + n)
      (sleeps ++ map (Nat.pow 2) (seq i n))%list.
Proof.
  revert i file gets sleeps. induction n as [|n IH]; intros i file gets sleeps Hn Hr; simpl.
  - by rewrite Nat.add_0_r, app_nil_r.
  - assert (Hi : retryable (get i) = true) by (apply Hr; lia).
    destruct (get i) as [b| |b|f] eqn:Hg; try discriminate Hi;
      destruct (Nat.eqb_spec i (retries - 1)) as [Heq|Hne];
      [assert (n = 0) as -> by lia; simpl; by rewrite Nat.add_1_r
      |rewrite IH by (lia || (intros; apply Hr; lia)); rewrite <- app_assoc;
       f_equal; (lia || reflexivity)
      |assert (n = 0) as -> by lia; simpl; by rewrite Nat.add_1_r
      |rewrite IH by (lia || (intros; apply Hr; lia)); rewrite <- app_assoc;
       f_equal; (lia || reflexivity)].
Qed.

Lemma dl_loop_success get retries i n k b file gets sleeps :
  i + n = retries -> i <= k < retries ->
  (forall j, i <= j < k -> retryable (get j) = true) -> get k = AttemptOk b ->
  dl_loop get retries (seq i n) file gets sleeps
  = mk_dl (Some true) (Some b) (gets + S (k - i)) (sleeps ++ map (Nat.pow 2) (seq i (k - i)))%list.
Proof.
  revert i file gets sleeps. induction n as [|n IH]; intros i file gets sleeps Hn Hk Hr Hb.
  - lia.
  - simpl. destruct (Nat.eq_dec i k) as [->|Hne].
    + rewrite Hb, Nat.sub_diag. simpl. by rewrite app_nil_r, Nat.add_1_r.
    + assert (Hi : retryable (get i) = true) by (apply Hr; lia).
      assert (Hlast : Nat.eqb i (retries - 1) = false) by (apply Nat.eqb_neq; lia).
      replace (k - i) with (S (k - S i)) by lia. simpl.
      destruct (get i) as [b'| |b'|f] eqn:Hg; try discriminate Hi; rewrite Hlast;
        (rewrite IH by (lia || assumption || (intros; apply Hr; lia)));
        rewrite <- app_assoc; f_equal; (lia || reflexivity).
Qed.

(** A download that succeeds at attempt [k] (the earlier attempts having
    failed with a [RequestException]) returns [True] after exactly [k + 1]
    requests, having slept 1, 2, ..., 2^(k-1) seconds; the file holds the
    body of the successful attempt, whatever partial writes came before. *)
Theorem download_succeeds_after_failures get retries k b file :
  k < retries -> (forall j, j < k -> retryable (get j) = true) -> get k = AttemptOk b ->
  download_file_with_progress get retries file
  = mk_dl (Some true) (Some b) (S k) (map (Nat.pow 2) (seq 0 k)).
Proof.
  intros Hk Hr Hb. unfold download_file_with_progress.
  rewrite (dl_loop_success get retries 0 retries k b); [|lia|lia|intros j Hj; apply Hr; lia|exact Hb].
  by rewrite Nat.sub_0_r.
Qed.

Definition flaky (j : nat) : attempt_result :=
  match j with
  | 0 => AttemptRefused
  | 1 => AttemptBroken [Byte.x25]
  | _ => AttemptOk [Byte.x25; Byte.x50; Byte.x44; Byte.x46]
  end.

Lemma download_succeeds_after_failures_witness :
  download_file_with_progress flaky 3 None
  = mk_dl (Some true) (Some [Byte.x25; Byte.x50; Byte.x44; Byte.x46]) 3 [1; 2].
Proof.
  apply (download_succeeds_after_failures flaky 3 2 _ None); [lia| |reflexivity].
  intros [|[|j]] Hj; [reflexivity|reflexivity|lia].
Defined.

(** When every attempt fails with a [RequestException], the download
    returns [False] after exactly [retries] requests, having slept
    1, 2, 4, ... seconds (2^attempt after each attempt, the last one
    included); the file keeps the bytes of the last partial write, or its
    earlier content when no attempt got as far as writing.  With
    [retries = 0] it returns [False] at once, without any request. *)
Theorem download_gives_up get retries file :
  (forall j, j < retries -> retryable (get j) = true) ->
  download_file_with_progress get retries file
  = mk_dl (Some false) (last_partial get (seq 0 retries) file) retries
      (map (Nat.pow 2) (seq 0 retries)).
Proof.
  intros Hr. unfold download_file_with_progress.
  rewrite dl_loop_fail; [reflexivity|lia|intros j Hj; apply Hr; lia].
Qed.

Definition always_broken (j : nat) : attempt_result :=
  if Nat.eqb j 1 then AttemptBroken [Byte.x25] else AttemptRefused.

Lemma download_gives_up_witness :
  download_file_with_progress always_broken 3 None = mk_dl (Some false) (Some [Byte.x25]) 3 [1; 2; 4].
Proof.
  apply (download_gives_up always_broken 3 None).
  intros [|[|[|j]]] Hj; [reflexivity|reflexivity|reflexivity|lia].
Defined.

Lemma dl_loop_gets get retries todo file gets sleeps :
  gets <= dl_gets (dl_loop get retries todo file gets sleeps) <= gets + length todo.
Proof.
  revert file gets sleeps. induction todo as [|a todo IH]; intros file gets sleeps; simpl; [lia|].
  destruct (get a); simpl; try lia; case_match; simpl; try lia;
    match goal with |- context [dl_loop _ _ _ ?f ?g ?sl] => pose proof (IH f g sl) end; lia.
Qed.

Lemma dl_loop_true get retries todo file gets sleeps :
  dl_outcome (dl_loop get retries todo file gets sleeps) = Some true ->
  exists k b, In k todo /\ get k = AttemptOk b /\
    dl_file (dl_loop get retries todo file gets sleeps) = Some b.
Proof.
  revert file gets sleeps. induction todo as [|a todo IH]; intros file gets sleeps; simpl;
    [discriminate|].
  destruct (get a) as [b| |b|f] eqn:Hg; simpl.
  - intros _. exists a, b. auto.
  - case_match; simpl; [discriminate|]. intros Hres.
    destruct (IH _ _ _ Hres) as (k & b & Hk & H1 & H2). exists k, b. auto.
  - case_match; simpl; [discriminate|]. intros Hres.
    destruct (IH _ _ _ Hres) as (k & b' & Hk & H1 & H2). exists k, b'. auto.
  - discriminate.
Qed.

(** Whatever the attempts do, [download_file_with_progress] makes at most
    [retries] requests, and it reports success only when some attempt
    below [retries] delivered the whole body, which is then the file's
    content. *)
Theorem download_bounded get retries file :
  let r := download_file_with_progress get retries file in
  dl_gets r <= retries /\
  (dl_outcome r = Some true ->
   exists k b, k < retries /\ get k = AttemptOk b /\ dl_file r = Some b).
Proof.
  unfold download_file_with_progress. split.
  - pose proof (dl_loop_gets get retries (seq 0 retries) file 0 []) as H.
    rewrite length_seq in H. lia.
  - intros H. destruct (dl_loop_true _ _ _ _ _ _ H) as (k & b & Hk & H1 & H2).
    apply in_seq in Hk. exists k, b. split; [lia|auto].
Qed.

End DownloadExtra.

(* ------------------------------------------------------------------ *)
(** ** Further properties of the unified scraper *)

Module UnifiedExtra.
Import Str Unified UnifiedFacts StrFacts StrExtra.

Lemma download_count x md fn sf sp url s :
  exists new, rows (download x md fn sf sp url s) = (rows s ++ new)%list /\
    st_count (download x md fn sf sp url s) = st_count s + length new.
Proof.
  unfold download. repeat case_match; simplify_eq;
    first [ exists []; rewrite app_nil_r; split; [reflexivity|simpl; lia]
          | eexists [_]; rewrite rows_bump, rows_append; split; [reflexivity|simpl; lia] ].
Qed.

(** The per-link step keeps the CSV's rows and adds as many as it counts. *)
Lemma process_link_count x bp key dry l s s' :
  process_link x bp key dry l s = Some s' ->
  exists new, rows s' = (rows s ++ new)%list /\ st_count s' = st_count s + length new.
Proof.
  destruct l as [href0 text]. unfold process_link.
  intros H. repeat case_match; simplify_eq;
    first [ exists []; rewrite app_nil_r; split; [reflexivity|simpl; lia]
          | apply download_count ].
Qed.

Lemma run_links_count x bp key dry links s s' :
  run_links x bp key dry links s = Some s' ->
  exists new, rows s' = (rows s ++ new)%list /\ st_count s' = st_count s + length new.
Proof.
  revert s. induction links as [|l links IH]; intros s H; simpl in H.
  - injection H as <-. exists []. rewrite app_nil_r. split; [reflexivity|simpl; lia].
  - destruct (process_link x bp key dry l s) as [s1|] eqn:E; [|discriminate].
    destruct (process_link_count _ _ _ _ _ _ _ E) as (n1 & R1 & C1).
    destruct (IH _ H) as (n2 & R2 & C2). exists (n1 ++ n2)%list.
    rewrite R2, R1, app_assoc, length_app. split; [reflexivity|lia].
Qed.

(** [scrape_papers] keeps the rows the tracking CSV already held (it only
    creates the CSV when it is missing) and the downloads it counts are
    exactly the rows it appends. *)
Theorem scrape_papers_count_rows x base_path config_key dry_run page s s' :
  scrape_papers x base_path config_key dry_run page s = Some s' ->
  exists new, rows s' = (rows s ++ new)%list /\ st_count s' = st_count s + length new.
Proof.
  unfold scrape_papers. destruct (lookup_config config_key CONFIGS) as [cfg|]; [|discriminate].
  destruct (create_folder_structure base_path config_key) as [ds|]; [|discriminate].
  intros H. apply run_links_count in H as (new & R & C). exists new.
  unfold rows in R |- *. rewrite R, C.
  destruct s as [d f [c|] rq lg cnt]; simpl; split; reflexivity.
Qed.

(** An environment where every request answers 200 with the same body. *)
Definition ok_ext : ext :=
  mk_ext (fun _ _ => Some (200, [Byte.x25; Byte.x50; Byte.x44; Byte.x46])) (fun u => u) "2026-01-01".

Definition edexcel_links : list (string * string) :=
  [("https://x/Paper-1-June-2019-QP.pdf", "June 2019 QP");
   ("https://x/Paper-2-June-2019-MS.pdf", "June 2019 MS");
   ("https://x/about", "About")].

Definition blank_state : state := mk_state [] ∅ None [] [] 0.

Lemma scrape_papers_count_rows_witness :
  exists s', scrape_papers ok_ext "/b" "edexcel_alevel" false edexcel_links blank_state = Some s' /\
    st_count s' = 2 /\
    exists new, rows s' = (rows blank_state ++ new)%list /\
      st_count s' = st_count blank_state + length new.
Proof.
  eexists. split; [vm_compute; reflexivity|]. split; [vm_compute; reflexivity|].
  apply (scrape_papers_count_rows ok_ext "/b" "edexcel_alevel" false edexcel_links blank_state).
  vm_compute. reflexivity.
Defined.

(** With [dry_run] the per-link step only logs: no file, CSV row, request
    or count changes. *)
Lemma process_link_dry x bp key l s s' :
  process_link x bp key true l s = Some s' ->
  st_files s' = st_files s /\ st_csv s' = st_csv s /\
  st_requests s' = st_requests s /\ st_count s' = st_count s.
Proof.
  destruct l as [href0 text]. unfold process_link.
  intros H. repeat case_match; simplify_eq; simpl; repeat split; reflexivity.
Qed.

Lemma run_links_dry x bp key links s s' :
  run_links x bp key true links s = Some s' ->
  st_files s' = st_files s /\ st_csv s' = st_csv s /\
  st_requests s' = st_requests s /\ st_count s' = st_count s.
Proof.
  revert s. induction links as [|l links IH]; intros s H; simpl in H.
  - injection H as <-. repeat split; reflexivity.
  - destruct (process_link x bp key true l s) as [s1|] eqn:E; [|discriminate].
    destruct (process_link_dry _ _ _ _ _ _ E) as (F1 & C1 & R1 & N1).
    destruct (IH _ H) as (F2 & C2 & R2 & N2).
    rewrite F2, C2, R2, N2, F1, C1, R1, N1. repeat split; reflexivity.
Qed.

(** A dry run of [scrape_papers] that completes writes no file, adds no row
    to the tracking CSV and counts no download; the only request it makes
    is the one for the board's page. *)
Theorem scrape_papers_dry_run x base_path config_key page cfg s s' :
  lookup_config config_key CONFIGS = Some cfg ->
  scrape_papers x base_path config_key true page s = Some s' ->
  st_files s' = st_files s /\ rows s' = rows s /\ st_count s' = st_count s /\
  st_requests s' = (st_requests s ++ [cfg_base_url cfg])%list.
Proof.
  intros Hc. unfold scrape_papers. rewrite Hc.
  destruct (create_folder_structure base_path config_key) as [ds|]; [|discriminate].
  intros H. apply run_links_dry in H as (F & C & R & N).
  unfold rows. rewrite F, C, R, N.
  destruct s as [d f [c|] rq lg cnt]; simpl; repeat split; reflexivity.
Qed.

Lemma scrape_papers_dry_run_witness :
  exists cfg s', lookup_config "edexcel_alevel" CONFIGS = Some cfg /\
    scrape_papers ok_ext "/b" "edexcel_alevel" true edexcel_links blank_state = Some s' /\
    st_files s' = st_files blank_state /\ rows s' = rows blank_state /\
    st_count s' = st_count blank_state /\
    st_requests s' = (st_requests blank_state ++ [cfg_base_url cfg])%list.
Proof.
  eexists. eexists. split; [vm_compute; reflexivity|]. split; [vm_compute; reflexivity|].
  eapply (scrape_papers_dry_run ok_ext "/b" "edexcel_alevel" edexcel_links);
    vm_compute; reflexivity.
Defined.

(** Every paper number [determine_paper_number] returns is ["paper N"],
    with the display name ["Paper N"] for the same non-empty run of digits
    [N]. *)
Theorem determine_paper_number_shape href link_text config_key pn dn :
  determine_paper_number href link_text config_key = Some (pn, dn) ->
  exists n, n <> "" /\ all_digits n = true /\
    pn = ("paper " ++ n)%string /\ dn = ("Paper " ++ n)%string.
Proof.
  apply paper_number_digits.
Qed.

Lemma determine_paper_number_shape_witness :
  determine_paper_number "https://x/Paper-12-June-2019-QP.pdf" "June 2019 QP" "edexcel_alevel"
    = Some ("paper 12", "Paper 12") /\
  exists n, n <> "" /\ all_digits n = true /\
    "paper 12" = ("paper " ++ n)%string /\ "Paper 12" = ("Paper " ++ n)%string.
Proof.
  split; [vm_compute; reflexivity|].
  apply (determine_paper_number_shape "https://x/Paper-12-June-2019-QP.pdf" "June 2019 QP"
           "edexcel_alevel").
  vm_compute. reflexivity.
Defined.

Lemma lookup_config_in key cs c : lookup_config key cs = Some c -> In key (map fst cs).
Proof.
  induction cs as [|[k c'] cs IH]; simpl; [discriminate|].
  destruct (String.eqb k key) eqn:E; [apply String.eqb_eq in E; auto|auto].
Qed.

(** For every board, a link numbered paper 1, 2 or 3 is saved under one of
    the folders [create_folder_structure] made for the board: the
    [save_folder] of [scrape_papers] is among them. *)
Theorem save_folder_precreated base_path href link_text config_key cfg pn dn ct disp md :
  lookup_config config_key CONFIGS = Some cfg ->
  determine_paper_number href link_text config_key = Some (pn, dn) ->
  In pn ["paper 1"; "paper 2"; "paper 3"] ->
  link_content_type link_text = Some (ct, disp) ->
  extract_metadata href link_text config_key pn dn = Some md ->
  exists ds, create_folder_structure base_path config_key = Some ds /\
    In (join (folder_components base_path md pn ct)) ds.
Proof.
  intros Hc _ Hpn Hct Hmd.
  apply link_content_type_cases in Hct.
  apply extract_metadata_board in Hmd.
  apply lookup_config_in in Hc. unfold folder_components.
  simpl in Hc. destruct Hc as [<-|[<-|[<-|[<-|[]]]]];
    simpl in Hmd; injection Hmd as <- <-;
    eexists; (split; [reflexivity|]);
    destruct Hpn as [<-|[<-|[<-|[]]]]; destruct Hct as [->| ->];
    cbv -[join]; repeat (first [left; reflexivity | right]).
Qed.

Lemma save_folder_precreated_witness :
  exists cfg md,
    lookup_config "edexcel_alevel" CONFIGS = Some cfg /\
    determine_paper_number "https://x/Paper-2-June-2019-MS.pdf" "June 2019 MS" "edexcel_alevel"
      = Some ("paper 2", "Paper 2") /\
    In "paper 2" ["paper 1"; "paper 2"; "paper 3"] /\
    link_content_type "June 2019 MS" = Some ("ms", "mark schemes") /\
    extract_metadata "https://x/Paper-2-June-2019-MS.pdf" "June 2019 MS" "edexcel_alevel"
      "paper 2" "Paper 2" = Some md /\
    exists ds, create_folder_structure "/b" "edexcel_alevel" = Some ds /\
      In (join (folder_components "/b" md "paper 2" "ms")) ds.
Proof.
  eexists. eexists.
  split; [vm_compute; reflexivity|]. split; [vm_compute; reflexivity|].
  split; [simpl; tauto|]. split; [vm_compute; reflexivity|].
  split; [vm_compute; reflexivity|].
  eapply (save_folder_precreated "/b" "https://x/Paper-2-June-2019-MS.pdf" "June 2019 MS"
            "edexcel_alevel"); [vm_compute; reflexivity..|simpl; tauto| |].
  - vm_compute. reflexivity.
  - vm_compute. reflexivity.
Defined.

Lemma split_str_aux_absent fuel sep s cur :
  contains sep s = false -> exists w, StrSplit.split_str_aux fuel sep s cur = [w].
Proof.
  revert s cur. induction fuel as [|fuel IH]; intros s cur H; simpl; [eauto|].
  destruct s as [|c s]; [eauto|].
  cbn [contains] in H. apply orb_false_iff in H as [Hp Hs]. rewrite Hp. auto.
Qed.

Lemma process_link_pdf_pages_abort x bp key dry href text s :
  contains "pdf-pages" href = true -> contains "?pdf=" href = false ->
  process_link x bp key dry (href, text) s = None.
Proof.
  intros Hp Hq. unfold process_link, link_href. rewrite Hp.
  destruct (split_str_aux_absent (S (String.length href)) "?pdf=" href "" Hq) as [w Hw].
  unfold StrSplit.split_str. rewrite Hw. reflexivity.
Qed.

Lemma run_links_abort x bp key dry l links s :
  (forall s, process_link x bp key dry l s = None) -> In l links ->
  run_links x bp key dry links s = None.
Proof.
  intros Hl. revert s. induction links as [|l' links IH]; intros s Hin; [destruct Hin|].
  simpl. destruct Hin as [<-|Hin]; [rewrite Hl; reflexivity|].
  destruct (process_link x bp key dry l' s); [apply IH, Hin|reflexivity].
Qed.

(** A link the board keeps whose URL contains ["pdf-pages"] but no
    ["?pdf="] makes [href.split("?pdf=")[1]] raise: [scrape_papers] aborts
    for the whole board, in a dry run as well, whatever the other links. *)
Theorem scrape_papers_pdf_pages_abort x base_path config_key dry_run page href text s :
  In (href, text) page -> keep_link config_key (href, text) = true ->
  contains "pdf-pages" href = true -> contains "?pdf=" href = false ->
  scrape_papers x base_path config_key dry_run page s = None.
Proof.
  intros Hin Hk Hp Hq. unfold scrape_papers.
  destruct (lookup_config config_key CONFIGS); [|reflexivity].
  destruct (create_folder_structure base_path config_key); [|reflexivity].
  apply (run_links_abort _ _ _ _ (href, strip text)).
  - intros s0. apply process_link_pdf_pages_abort; assumption.
  - unfold collect_links. apply (in_map (fun '(h, t) => (h, strip t)) _ (href, text)).
    apply filter_In. split; assumption.
Qed.

Lemma scrape_papers_pdf_pages_abort_witness :
  scrape_papers ok_ext "/b" "edexcel_alevel" true
    (("https://x/pdf-pages/Paper-1-June-2019-QP.pdf", "June 2019 QP") :: edexcel_links)
    blank_state = None.
Proof.
  apply (scrape_papers_pdf_pages_abort _ _ _ _ _ "https://x/pdf-pages/Paper-1-June-2019-QP.pdf"
           "June 2019 QP"); [simpl; tauto|vm_compute; reflexivity..].
Defined.

(** The state with the rows [rs] recorded in the tracking CSV before
    those of [s]. *)
Definition prepend_rows (rs : list row) (s : state) : state :=
  mk_state s.(st_dirs) s.(st_files) (Some (rs ++ rows s)%list) s.(st_requests) s.(st_log)
    s.(st_count).

Lemma log_prepend e rs s : log e (prepend_rows rs s) = prepend_rows rs (log e s).
Proof. reflexivity. Qed.
Lemma request_prepend u rs s : request u (prepend_rows rs s) = prepend_rows rs (request u s).
Proof. reflexivity. Qed.
Lemma write_file_prepend p b rs s :
  write_file p b (prepend_rows rs s) = prepend_rows rs (write_file p b s).
Proof. reflexivity. Qed.
Lemma bump_prepend rs s : bump (prepend_rows rs s) = prepend_rows rs (bump s).
Proof. reflexivity. Qed.
Lemma add_dirs_prepend ds rs s : add_dirs ds (prepend_rows rs s) = prepend_rows rs (add_dirs ds s).
Proof. reflexivity. Qed.
Lemma append_row_prepend r rs s :
  append_row r (prepend_rows rs s) = prepend_rows rs (append_row r s).
Proof. unfold append_row, prepend_rows, rows. destruct (st_csv s); simpl; by rewrite <- app_assoc. Qed.
Lemma can_open_prepend sf fn rs s : can_open_wb sf fn (prepend_rows rs s) = can_open_wb sf fn s.
Proof. reflexivity. Qed.

Lemma download_prepend x md fn sf sp url rs s :
  download x md fn sf sp url (prepend_rows rs s) = prepend_rows rs (download x md fn sf sp url s).
Proof.
  unfold download. rewrite request_prepend.
  destruct (x_get x 0 url) as [[code0 body0]|]; [|apply log_prepend].
  assert (Hfin : forall code body s2,
    match Some (code, body) with
    | None => log (EvError fn) (prepend_rows rs s2)
    | Some (code, body) =>
        if Nat.eqb code 200 then
          if can_open_wb sf fn (prepend_rows rs s2) then
            bump (append_row (row_of md fn sp x.(x_now))
                    (log (EvSaved sp) (write_file sp body (prepend_rows rs s2))))
          else log (EvError fn) (prepend_rows rs s2)
        else log (EvFailed code) (prepend_rows rs s2)
    end =
    prepend_rows rs
      match Some (code, body) with
      | None => log (EvError fn) s2
      | Some (code, body) =>
          if Nat.eqb code 200 then
            if can_open_wb sf fn s2 then
              bump (append_row (row_of md fn sp x.(x_now))
                      (log (EvSaved sp) (write_file sp body s2)))
            else log (EvError fn) s2
          else log (EvFailed code) s2
      end).
  { intros code body s2. rewrite can_open_prepend.
    destruct (Nat.eqb code 200); [destruct (can_open_wb sf fn s2)|];
      rewrite ?write_file_prepend, ?log_prepend, ?append_row_prepend, ?bump_prepend;
      reflexivity. }
  destruct (Nat.eqb code0 400).
  - rewrite request_prepend. destruct (x_get x 1 url) as [[code body]|]; [|apply log_prepend].
    apply Hfin.
  - apply Hfin.
Qed.

Lemma process_link_prepend x bp key dry l rs s :
  process_link x bp key dry l (prepend_rows rs s) =
  option_map (prepend_rows rs) (process_link x bp key dry l s).
Proof.
  destruct l as [href0 text]. unfold process_link.
  repeat case_match; try reflexivity; simpl; f_equal;
    first [apply log_prepend | apply download_prepend].
Qed.

Lemma run_links_prepend x bp key dry links rs s :
  run_links x bp key dry links (prepend_rows rs s) =
  option_map (prepend_rows rs) (run_links x bp key dry links s).
Proof.
  revert s. induction links as [|l links IH]; intros s; [reflexivity|]. simpl.
  rewrite process_link_prepend. destruct (process_link x bp key dry l s); [apply IH|reflexivity].
Qed.

(** [scrape_papers] never reads the tracking CSV: the rows [rs] it already
    holds change nothing of what it requests, writes, logs or counts, and
    stay in front of the rows it appends.  In particular a paper already
    recorded is downloaded and recorded again. *)
Theorem scrape_papers_ignores_recorded_rows x base_path config_key dry_run page rs s :
  scrape_papers x base_path config_key dry_run page (prepend_rows rs s) =
  option_map (prepend_rows rs) (scrape_papers x base_path config_key dry_run page s).
Proof.
  unfold scrape_papers.
  destruct (lookup_config config_key CONFIGS) as [cfg|]; [|reflexivity].
  destruct (create_folder_structure base_path config_key) as [ds|]; [|reflexivity].
  rewrite <- run_links_prepend. f_equal.
  destruct s as [d f [c|] rq lg cnt]; unfold prepend_rows, rows; simpl; [reflexivity|].
  by rewrite app_nil_r.
Qed.

End UnifiedExtra.

